(** * pywhere: attribution of a profiler sample to a Python source location

    A shallow embedding of [src/source/pywhere.cpp]: the path filter
    [TraceConfig] with its decision procedure [should_trace], the singleton
    holding the current filter, the thread fallback
    [findMainPythonThread_frame], the stack walk [whereInPython] and the
    registration entry point [register_files_to_profile].

    Conventions of the embedding.
    - A [char*] is a [string]: the bytes before the terminating NUL.  The
      buffer of a Python [bytes] object may hold NUL bytes; read through a
      [char*] it ends at the first of them ([PyBytes_AsString]).
    - [int] values (line numbers, bytecode offsets, return codes) and the
      64-bit thread identifiers are in [Z]; no arithmetic is done on them.
    - A [PyFrameObject*] is the list of frames reached through [f_back],
      innermost first; [nullptr] is [nil].
    - What the C library and the interpreter decide ([realpath], [dlsym],
      the thread list, the build target) is a parameter of the functions
      that call them. *)

From Stdlib Require Import ZArith List Bool Lia Sorting.Permutation.
From Stdlib Require Import Strings.Ascii Strings.String.
Import ListNotations.

Local Open Scope string_scope.
Local Open Scope Z_scope.

(** ** C strings *)

Module CStr.

(** [starts_with needle s]: [needle] is an initial segment of [s]. *)
Fixpoint starts_with (needle s : string) : bool :=
  match needle, s with
  | EmptyString, _ => true
  | String _ _, EmptyString => false
  | String a needle', String b s' => Ascii.eqb a b && starts_with needle' s'
  end.

(** [strstr haystack needle]: the part of [haystack] that starts at the
    first occurrence of [needle], [None] for the null pointer.  An empty
    [needle] occurs at the start of every string. *)
Fixpoint strstr (haystack needle : string) : option string :=
  if starts_with needle haystack then Some haystack
  else match haystack with
       | EmptyString => None
       | String _ haystack' => strstr haystack' needle
       end.

(** A pointer used as a condition: true unless null. *)
Definition nonnull {A : Type} (p : option A) : bool :=
  match p with Some _ => true | None => false end.

Definition strlen (s : string) : nat := String.length s.

(** [*s == c]; the first byte of the empty string is the terminator. *)
Definition first_is (c : ascii) (s : string) : bool :=
  match s with
  | EmptyString => Ascii.eqb c zero
  | String a _ => Ascii.eqb a c
  end.

(** The notion the specification uses: [needle] occurs somewhere in [s]. *)
Definition Contains (s needle : string) : Prop :=
  exists pre post, s = pre ++ needle ++ post.

(** The specification's "begins with the character [c]". *)
Definition BeginsWith (c : ascii) (s : string) : Prop :=
  exists rest, s = String c rest.

End CStr.

Import CStr.

(** ** What a C call can do besides returning *)

(** [abort()] ends the process; everything else returns a value. *)
Inductive Outcome (A : Type) : Type :=
| Returns (a : A)
| Aborts.
Arguments Returns {A} a.
Arguments Aborts {A}.

(** ** TraceConfig *)

(** The fields of the class.  [owner] is the Python list the fragments were
    read from ([None] for [nullptr]); [path_owner] keeps the base path
    object alive. *)
Record TraceConfig : Type := mkTraceConfig {
  items : list string;
  scalene_base_path : string;
  owner : option (list string);
  path_owner : option string;
  profile_all : bool
}.

(** The constructor.  It assumes, as its comment says, that every item can
    be read as a byte string, so the list holds strings. *)
Definition TraceConfig_new (list_wrapper : list string) (base_path : string)
    (profile_all_b : bool) : TraceConfig :=
  {| items := list_wrapper;
     scalene_base_path := base_path;
     owner := Some list_wrapper;
     path_owner := Some base_path;
     profile_all := profile_all_b |}.

Section ShouldTrace.

(** [realpath filename]: the canonical absolute path with every symbolic
    link resolved, [None] when the C library reports a failure. *)
Variable realpath : string -> option string.

(** The [for] loop over [items]: true as soon as one fragment occurs. *)
Fixpoint any_traceable (filename : string) (its : list string) : bool :=
  match its with
  | [] => false
  | traceable :: rest =>
      if nonnull (strstr filename traceable) then true
      else any_traceable filename rest
  end.

Definition should_trace (cfg : TraceConfig) (filename : string) : Outcome bool :=
  if nonnull (strstr filename "site-packages")
     || nonnull (strstr filename "/lib/python")
  then Returns false
  else if first_is "<"%char filename && nonnull (strstr filename "<ipython")
  then Returns true
  else if nonnull (strstr filename "scalene/scalene")
  then Returns false
  else if nonnull (owner cfg) && any_traceable filename (items cfg)
  then Returns true
  else match realpath filename with
       | None => Aborts
       | Some resolved_path =>
           Returns (nonnull (strstr resolved_path (scalene_base_path cfg)))
       end.

End ShouldTrace.

(** The five rules of the decision, as the specification words them. *)
Definition Rule1 (filePath : string) : Prop :=
  Contains filePath "site-packages" \/ Contains filePath "/lib/python".

Definition Rule2 (filePath : string) : Prop :=
  BeginsWith "<"%char filePath /\ Contains filePath "<ipython".

Definition Rule3 (filePath : string) : Prop :=
  Contains filePath "scalene/scalene".

Definition Rule4 (includePatterns : list string) (filePath : string) : Prop :=
  exists fragment, In fragment includePatterns /\ Contains filePath fragment.

(** ** The interpreter as the walk sees it *)

(** The Python objects the code handles.  [PyStr s] is a [str] whose
    characters are all ASCII, [PyStrWide] a [str] with a character outside
    ASCII. *)
#[warnings="-register-all"]
Inductive PyObject : Type :=
| PyNone
| PyBool (b : bool)
| PyStr (s : string)
| PyStrWide
| PyList (elems : list PyObject).

(** The encoder: the [bytes] object with the characters of an ASCII [str]
    (U+0000 is one of them), null on anything else. *)
Definition PyUnicode_AsASCIIString (o : PyObject) : option string :=
  match o with
  | PyStr s => Some s
  | _ => None
  end.

(** The buffer of a [bytes] object as the C code reads it through the
    [char*]: [strlen], [strstr] and the assignment to a [std::string] stop
    at the first NUL byte. *)
Fixpoint PyBytes_AsString (buffer : string) : string :=
  match buffer with
  | EmptyString => EmptyString
  | String c rest =>
      if Ascii.eqb c zero then EmptyString
      else String c (PyBytes_AsString rest)
  end.

(** A frame with the three things the walk reads from it: the file name of
    its code object, [PyFrame_GetLineNumber] and [PyFrame_GetLasti]. *)
Record PyFrameObject : Type := mkFrame {
  co_filename : PyObject;
  f_lineno : Z;
  f_lasti : Z
}.

(** The file name of the frame as the walk reads it: the C string in the
    ASCII encoding of [co_filename], [None] when the encoder fails. *)
Definition frame_filename (f : PyFrameObject) : option string :=
  match PyUnicode_AsASCIIString (co_filename f) with
  | Some buffer => Some (PyBytes_AsString buffer)
  | None => None
  end.

(** A frame pointer: the frame and its callers, [nil] for [nullptr]. *)
Definition FramePtr : Type := list PyFrameObject.

Record PyThreadState : Type := mkThread {
  id : Z;
  frame : FramePtr
}.

Definition PyThreadState_GetFrame (threadState : PyThreadState) : FramePtr :=
  frame threadState.

(** The interpreter at the moment of a sample: whether it is initialized,
    the thread state of the calling thread (if it has one) and the threads
    of the main interpreter in the order [PyInterpreterState_ThreadHead],
    [PyThreadState_Next] give them. *)
Record Interp : Type := mkInterp {
  Py_IsInitialized : bool;
  PyGILState_GetThisThreadState : option PyThreadState;
  PyInterpreterState_ThreadHead : list PyThreadState
}.

(** The [for] loop of [findMainPythonThread_frame], [main] being the
    thread kept so far. *)
Fixpoint smallest_id (main : option PyThreadState) (t : list PyThreadState)
  : option PyThreadState :=
  match t with
  | [] => main
  | t0 :: next =>
      let main' :=
        match main with
        | None => Some t0
        | Some m => if id m >? id t0 then Some t0 else Some m
        end in
      smallest_id main' next
  end.

Definition findMainPythonThread (py : Interp) : option PyThreadState :=
  smallest_id None (PyInterpreterState_ThreadHead py).

Definition findMainPythonThread_frame (py : Interp) : FramePtr :=
  match findMainPythonThread py with
  | Some main => PyThreadState_GetFrame main
  | None => []
  end.

(** ** The process-wide state *)

(** The function a published pointer designates. *)
Inductive FnPtr : Type := Fn_whereInPython.

Inductive PyErr : Type :=
| ArgumentError
| PyExc_Exception (msg : string).

(** What [register_files_to_profile] does to the process, in order. *)
Inductive Effect : Type :=
| Destroyed (old : TraceConfig)
| Installed (new : TraceConfig)
| Looked_up (symbol : string).

(** [_instance] is [TraceConfig::_instance]; [p_whereInPython] is [None]
    when the process defines no such symbol and otherwise the value of the
    pointer variable; [pyerr] is the pending Python exception. *)
Record Process : Type := mkProcess {
  _instance : option TraceConfig;
  p_whereInPython : option (option FnPtr);
  pyerr : option PyErr;
  effects : list Effect
}.

(** The state at load time: [TraceConfig* TraceConfig::_instance = 0]. *)
Definition Process_start (sym : option (option FnPtr)) : Process :=
  {| _instance := None; p_whereInPython := sym; pyerr := None; effects := [] |}.

Definition getInstance (ps : Process) : option TraceConfig := _instance ps.

(** [delete _instance; _instance = instance;] *)
Definition setInstance (ps : Process) (instance : TraceConfig) : Process :=
  let destroyed :=
    match _instance ps with
    | Some old => [Destroyed old]
    | None => []
    end in
  {| _instance := Some instance;
     p_whereInPython := p_whereInPython ps;
     pyerr := pyerr ps;
     effects := (effects ps ++ destroyed ++ [Installed instance])%list |}.

Definition PyErr_SetString (ps : Process) (msg : string) : Process :=
  {| _instance := _instance ps;
     p_whereInPython := p_whereInPython ps;
     pyerr := Some (PyExc_Exception msg);
     effects := effects ps |}.

(** [dlsym(RTLD_DEFAULT, symbol)] for the one symbol the code asks for:
    whether it was found, and the process with the lookup recorded. *)
Definition dlsym (ps : Process) (symbol : string) : bool * Process :=
  (nonnull (p_whereInPython ps),
   {| _instance := _instance ps;
      p_whereInPython := p_whereInPython ps;
      pyerr := pyerr ps;
      effects := (effects ps ++ [Looked_up symbol])%list |}).

(** [*p_where = fn] *)
Definition store_p_where (ps : Process) (fn : FnPtr) : Process :=
  {| _instance := _instance ps;
     p_whereInPython := Some (Some fn);
     pyerr := pyerr ps;
     effects := effects ps |}.

(** ** whereInPython *)

(** The three output parameters. *)
Record Location : Type := mkLocation {
  filename : string;
  lineno : Z;
  bytei : Z
}.

Definition BOGUS : Location :=
  {| filename := "<BOGUS>"; lineno := 1; bytei := 0 |}.

(** What the walk asks of the interpreter and of the filter, in order. *)
Inductive Event : Type :=
| Read_filename (f : PyFrameObject)
| Asked_should_trace (filenameStr : string).

(** How one pass through the body of the [while] loop ends. *)
Inductive Ctl : Type :=
| Return (r : Outcome Z) (out : Location)
| Loop (frame : FramePtr).

(** A finished call: how it ended, the output parameters, what it asked. *)
Record Run : Type := mkRun {
  exit : Outcome Z;
  out : Location;
  events : list Event
}.

Section WhereInPython.

Variable realpath : string -> option string.

(** True when compiled for PyPy ([PyPy_FatalError] is defined). *)
Variable PyPy : bool.

(** One pass through the loop body with [f] the current frame and [back]
    what [PyFrame_GetBack] gives. *)
Definition loop_body (traceConfig : TraceConfig) (f : PyFrameObject)
    (back : FramePtr) (out : Location) : Ctl * list Event :=
  match PyUnicode_AsASCIIString (co_filename f) with
  | None => (Return (Returns 0) out, [Read_filename f])
  | Some co_filename_bytes =>
      let filenameStr := PyBytes_AsString co_filename_bytes in
      if (strlen filenameStr =? 0)%nat
      then (Loop (f :: back), [Read_filename f])
      else if negb (nonnull (strstr filenameStr "<"))
              && negb (nonnull (strstr filenameStr "/python"))
              && negb (nonnull (strstr filenameStr "scalene/scalene"))
      then
        let asked := [Read_filename f; Asked_should_trace filenameStr] in
        match should_trace realpath traceConfig filenameStr with
        | Aborts => (Return Aborts out, asked)
        | Returns true =>
            (Return (Returns 1)
               {| filename := filenameStr;
                  lineno := f_lineno f;
                  bytei := if PyPy then 0 else f_lasti f |},
             asked)
        | Returns false => (Loop back, asked)
        end
      else (Loop back, [Read_filename f])
  end.

(** The [while (frame != nullptr)] loop.  [fuel] bounds the number of
    passes; [None] says the bound was reached with the loop still running. *)
Fixpoint while_frame (fuel : nat) (traceConfig : TraceConfig)
    (frame : FramePtr) (out : Location) (seen : list Event) : option Run :=
  match frame with
  | [] => Some {| exit := Returns 0; out := out; events := seen |}
  | f :: back =>
      match fuel with
      | O => None
      | S fuel' =>
          match loop_body traceConfig f back out with
          | (Return r out', ev) =>
              Some {| exit := r; out := out'; events := seen ++ ev |}
          | (Loop frame', ev) =>
              while_frame fuel' traceConfig frame' out (seen ++ ev)
          end
      end
  end.

(** The frame the walk starts from. *)
Definition start_frame (py : Interp) : FramePtr :=
  let frame :=
    match PyGILState_GetThisThreadState py with
    | Some threadState => PyThreadState_GetFrame threadState
    | None => []
    end in
  match frame with
  | [] => findMainPythonThread_frame py
  | _ :: _ => frame
  end.

(** [out] holds the caller's values of the three reference parameters. *)
Definition whereInPython (fuel : nat) (py : Interp) (ps : Process)
    (out : Location) : option Run :=
  if negb (Py_IsInitialized py)
  then Some {| exit := Returns 0; out := out; events := [] |}
  else
    let out := BOGUS in
    let frame := start_frame py in
    match getInstance ps with
    | None => Some {| exit := Returns 0; out := out; events := [] |}
    | Some traceConfig => while_frame fuel traceConfig frame out []
    end.

End WhereInPython.

(** A pass that goes on to the caller's frame and never asked the filter. *)
Definition Skipped_unasked (pass : Ctl * list Event) (back : FramePtr) : Prop :=
  fst pass = Loop back
  /\ forall filenameStr, ~ In (Asked_should_trace filenameStr) (snd pass).

(** The three tests the walk makes before it asks the filter. *)
Definition Fast_path (identifier : string) : Prop :=
  Contains identifier "<" \/ Contains identifier "/python"
  \/ Contains identifier "scalene/scalene".

(** ** register_files_to_profile *)

(** [PyArg_ParseTuple(args, "OOp", ...)]: two objects and a truth value. *)
Definition PyObject_IsTrue (o : PyObject) : bool :=
  match o with
  | PyNone => false
  | PyBool b => b
  | PyStr s => negb (Nat.eqb (String.length s) 0)
  | PyStrWide => true
  | PyList elems => negb (Nat.eqb (List.length elems) 0)
  end.

Definition PyArg_ParseTuple_OOp (args : list PyObject)
  : option (PyObject * PyObject * bool) :=
  match args with
  | [a_list; base_path; profile_all] =>
      Some (a_list, base_path, PyObject_IsTrue profile_all)
  | _ => None
  end.

(** The items of the list as the constructor stores them,
    [PyBytes_AsString(PyUnicode_AsASCIIString(item))] for each; [None] when
    one of them breaks the constructor's assumption (the null result of the
    encoder is then dereferenced). *)
Fixpoint ascii_items (elems : list PyObject) : option (list string) :=
  match elems with
  | [] => Some []
  | item :: rest =>
      match PyUnicode_AsASCIIString item, ascii_items rest with
      | Some buffer, Some l => Some (PyBytes_AsString buffer :: l)
      | _, _ => None
      end
  end.

(** What the Python caller gets back. *)
Inductive PyReturn : Type :=
| Py_NULL
| Py_None.

(** The result is [None] when the constructor's assumption on its
    arguments fails: the behaviour is then undefined. *)
Definition register_files_to_profile (ps : Process) (args : list PyObject)
  : option (PyReturn * Process) :=
  match PyArg_ParseTuple_OOp args with
  | None =>
      Some (Py_NULL,
            {| _instance := _instance ps;
               p_whereInPython := p_whereInPython ps;
               pyerr := Some ArgumentError;
               effects := effects ps |})
  | Some (a_list, base_path, profile_all) =>
      match a_list with
      | PyList elems =>
          match ascii_items elems, PyUnicode_AsASCIIString base_path with
          | Some list_wrapper, Some base =>
              let ps1 :=
                setInstance ps
                  (TraceConfig_new list_wrapper (PyBytes_AsString base)
                     profile_all) in
              let (p_where, ps2) := dlsym ps1 "p_whereInPython" in
              if negb p_where
              then Some (Py_NULL,
                         PyErr_SetString ps2 "Unable to find p_whereInPython")
              else Some (Py_None, store_p_where ps2 Fn_whereInPython)
          | _, _ => None
          end
      | _ =>
          Some (Py_NULL,
                PyErr_SetString ps "Requires list or list-like object")
      end
  end.

(** ** print and print_files_to_profile *)

Definition tab : string := String "009"%char "".
Definition newline : string := String "010"%char "".

(** [printf("%d", b)] for a [bool]. *)
Definition printf_d (b : bool) : string := if b then "1" else "0".

(** The [for] loop of [print]: [printf("\t%s\n", c)] for every item. *)
Fixpoint print_items (its : list string) : string :=
  match its with
  | [] => ""
  | c :: rest => tab ++ c ++ newline ++ print_items rest
  end.

(** What [TraceConfig::print] writes to the standard output. *)
Definition TraceConfig_print (cfg : TraceConfig) : string :=
  "Profile all? " ++ printf_d (profile_all cfg) ++ newline ++ "items {"
  ++ print_items (items cfg) ++ "}" ++ newline.

(** [stdout] is what was written before the call; the result is what the
    caller gets, the process and the standard output after the call. *)
Definition print_files_to_profile (ps : Process) (stdout : string)
  : PyReturn * Process * string :=
  match getInstance ps with
  | Some pl => (Py_None, ps, stdout ++ TraceConfig_print pl)
  | None => (Py_None, ps, stdout)
  end.

(** ** How the walk treats a frame *)

Section Frames.

Variable realpath : string -> option string.
Variable PyPy : bool.
Variable traceConfig : TraceConfig.

(** The walk goes past the frame to its caller: the file name, as the
    walk reads it, is a nonempty string that one of the three early tests
    excludes or that the filter refuses. *)
Definition Passed_over (f : PyFrameObject) : Prop :=
  exists name,
    frame_filename f = Some name
    /\ name <> ""
    /\ (Fast_path name \/ should_trace realpath traceConfig name = Returns false).

(** The walk stops at the frame with success. *)
Definition Accepted (f : PyFrameObject) (name : string) : Prop :=
  frame_filename f = Some name
  /\ name <> ""
  /\ ~ Fast_path name
  /\ should_trace realpath traceConfig name = Returns true.

(** What the output parameters hold after success at [f]. *)
Definition location_of (f : PyFrameObject) (name : string) : Location :=
  {| filename := name;
     lineno := f_lineno f;
     bytei := if PyPy then 0 else f_lasti f |}.

(** What one pass at the frame asks of the interpreter and the filter; it
    depends neither on the caller's frame nor on the output parameters. *)
Definition pass_events (f : PyFrameObject) : list Event :=
  snd (loop_body realpath PyPy traceConfig f [] BOGUS).

(** The walk reaches a frame whose file name, as the walk reads it, is the
    empty string: the name is empty or begins with a NUL character. *)
Definition Stuck (chain : FramePtr) : Prop :=
  exists pre f post,
    chain = (pre ++ f :: post)%list
    /\ Forall Passed_over pre
    /\ frame_filename f = Some "".

(** The five ways a pass through the loop body can go, [out0] being the
    output parameters before the pass. *)
Inductive Pass (f : PyFrameObject) (back : FramePtr) (out0 : Location)
  : Ctl -> Prop :=
| Pass_undecodable :
    PyUnicode_AsASCIIString (co_filename f) = None ->
    Pass f back out0 (Return (Returns 0) out0)
| Pass_unnamed :
    frame_filename f = Some "" ->
    Pass f back out0 (Loop (f :: back))
| Pass_over :
    Passed_over f ->
    Pass f back out0 (Loop back)
| Pass_accept name :
    Accepted f name ->
    Pass f back out0 (Return (Returns 1) (location_of f name))
| Pass_abort name :
    frame_filename f = Some name ->
    name <> "" -> ~ Fast_path name ->
    should_trace realpath traceConfig name = Aborts ->
    Pass f back out0 (Return Aborts out0).

(** Where a finished walk over a chain stopped and what it left: at the
    end of the chain, at a frame whose name cannot be read, at an accepted
    frame, or in [abort()]. *)
Inductive Stopped (out0 : Location) (r : Run) : FramePtr -> Prop :=
| Stopped_end :
    exit r = Returns 0 -> out r = out0 -> Stopped out0 r []
| Stopped_undecodable f post :
    PyUnicode_AsASCIIString (co_filename f) = None ->
    exit r = Returns 0 -> out r = out0 -> Stopped out0 r (f :: post)
| Stopped_accept f post name :
    Accepted f name ->
    exit r = Returns 1 -> out r = location_of f name ->
    Stopped out0 r (f :: post)
| Stopped_abort f post name :
    frame_filename f = Some name ->
    name <> "" -> ~ Fast_path name ->
    should_trace realpath traceConfig name = Aborts ->
    exit r = Aborts -> out r = out0 -> Stopped out0 r (f :: post).

End Frames.

(** ** Sample inputs *)

Module Sample.

(** A file system in which every path exists and none goes through a
    symbolic link, and one in which no path resolves. *)
Definition realpath_plain (path : string) : option string := Some path.
Definition realpath_fails (path : string) : option string := None.

Definition myapp : TraceConfig :=
  TraceConfig_new ["myapp/"] "/home/u/myapp" false.

Definition worker : PyFrameObject :=
  {| co_filename := PyStr "/home/u/myapp/worker.py";
     f_lineno := 12; f_lasti := 34 |}.

Definition threading : PyFrameObject :=
  {| co_filename := PyStr "/usr/lib/python3.11/threading.py";
     f_lineno := 975; f_lasti := 8 |}.

Definition importlib : PyFrameObject :=
  {| co_filename := PyStr "<frozen importlib>";
     f_lineno := 1; f_lasti := 2 |}.

(** A file whose name has '<' after its first character. *)
Definition generated : PyFrameObject :=
  {| co_filename := PyStr "/home/u/myapp/gen<T>.py";
     f_lineno := 3; f_lasti := 6 |}.

Definition unnamed : PyFrameObject :=
  {| co_filename := PyStr ""; f_lineno := 1; f_lasti := 0 |}.

(** The NUL character, and two file names that hold one: after the path,
    and before it. *)
Definition nul : string := String zero "".

Definition nul_inside : PyFrameObject :=
  {| co_filename := PyStr ("/home/u/myapp/a.py" ++ nul ++ "<x>");
     f_lineno := 2; f_lasti := 4 |}.

Definition nul_first : PyFrameObject :=
  {| co_filename := PyStr (nul ++ "/home/u/myapp/worker.py");
     f_lineno := 12; f_lasti := 34 |}.

(** A process in which [myapp] is installed and the pointer is published. *)
Definition registered : Process :=
  {| _instance := Some myapp;
     p_whereInPython := Some (Some Fn_whereInPython);
     pyerr := None;
     effects := [Installed myapp; Looked_up "p_whereInPython"] |}.

(** An interpreter whose calling thread runs [stack]. *)
Definition running (stack : FramePtr) : Interp :=
  let this := {| id := 1; frame := stack |} in
  {| Py_IsInitialized := true;
     PyGILState_GetThisThreadState := Some this;
     PyInterpreterState_ThreadHead := [this] |}.

(** A sample taken on a native thread while three Python threads run. *)
Definition native_thread : Interp :=
  {| Py_IsInitialized := true;
     PyGILState_GetThisThreadState := None;
     PyInterpreterState_ThreadHead :=
       [ {| id := 3; frame := [threading] |};
         {| id := 2; frame := [importlib] |};
         {| id := 1; frame := [threading; worker] |} ] |}.

(** The interpreter before [Py_Initialize] or after [Py_Finalize]. *)
Definition stopped : Interp :=
  {| Py_IsInitialized := false;
     PyGILState_GetThisThreadState := None;
     PyInterpreterState_ThreadHead := [] |}.

(** A frame whose file name has a character outside ASCII. *)
Definition accented : PyFrameObject :=
  {| co_filename := PyStrWide; f_lineno := 7; f_lasti := 14 |}.

(** A frame in a file outside the fragments of [myapp]. *)
Definition other : PyFrameObject :=
  {| co_filename := PyStr "/opt/other/b.py"; f_lineno := 5; f_lasti := 10 |}.

(** The threads of [native_thread] listed in another order. *)
Definition native_thread_reordered : Interp :=
  {| Py_IsInitialized := true;
     PyGILState_GetThisThreadState := None;
     PyInterpreterState_ThreadHead :=
       [ {| id := 2; frame := [importlib] |};
         {| id := 3; frame := [threading] |};
         {| id := 1; frame := [threading; worker] |} ] |}.

(** Values a caller may hold in the output parameters before the call. *)
Definition stale : Location :=
  {| filename := "/home/u/myapp/worker.py"; lineno := 12; bytei := 34 |}.

Definition blank : Location :=
  {| filename := ""; lineno := 0; bytei := 0 |}.

End Sample.

(** ** Facts about the string primitives *)

Lemma starts_with_split (needle s : string) :
  starts_with needle s = true <-> exists post, s = needle ++ post.
Proof.
  revert s; induction needle as [|a needle IH]; intros s; simpl.
  - split; [intros _; now exists s | reflexivity].
  - destruct s as [|b s].
    + split; [discriminate | intros [post H]; discriminate].
    + rewrite andb_true_iff, Ascii.eqb_eq, IH. split.
      * intros [-> [post ->]]. now exists post.
      * intros [post H]. injection H as -> ->. split; [reflexivity | now exists post].
Qed.

Lemma strstr_contains (haystack needle : string) :
  nonnull (strstr haystack needle) = true <-> Contains haystack needle.
Proof.
  unfold Contains.
  induction haystack as [|c h IH]; simpl strstr.
  - destruct (starts_with needle "") eqn:E.
    + split; [intros _ | reflexivity].
      apply starts_with_split in E as [post E]. now exists "", post.
    + split; [discriminate |].
      intros [pre [post H]]. destruct pre; [|discriminate].
      assert (starts_with needle "" = true) by (apply starts_with_split; now exists post).
      congruence.
  - destruct (starts_with needle (String c h)) eqn:E.
    + split; [intros _ | reflexivity].
      apply starts_with_split in E as [post E]. now exists "", post.
    + rewrite IH. split.
      * intros [pre [post ->]]. now exists (String c pre), post.
      * intros [pre [post H]]. destruct pre as [|c' pre].
        -- assert (starts_with needle (String c h) = true)
             by (apply starts_with_split; now exists post).
           congruence.
        -- injection H as _ ->. now exists pre, post.
Qed.

Lemma strstr_not_contains (haystack needle : string) :
  nonnull (strstr haystack needle) = false <-> ~ Contains haystack needle.
Proof.
  rewrite <- strstr_contains. destruct (nonnull _); intuition congruence.
Qed.

Lemma first_is_begins (c : ascii) (s : string) :
  c <> zero -> (first_is c s = true <-> BeginsWith c s).
Proof.
  intros Hc. unfold BeginsWith. destruct s as [|a s]; simpl.
  - rewrite Ascii.eqb_eq. split; [contradiction | intros [r H]; discriminate].
  - rewrite Ascii.eqb_eq. split.
    + intros ->. now exists s.
    + intros [r H]. now injection H.
Qed.

Lemma any_traceable_exists (filename : string) (its : list string) :
  any_traceable filename its = true <->
  exists traceable, In traceable its /\ Contains filename traceable.
Proof.
  induction its as [|t its IH]; simpl.
  - split; [discriminate | intros [? [[] _]]].
  - destruct (nonnull (strstr filename t)) eqn:E.
    + split; [intros _ | reflexivity].
      exists t. split; [now left | now apply strstr_contains].
    + rewrite IH. split.
      * intros [u [Hin Hc]]. exists u. split; [now right | assumption].
      * intros [u [[<- | Hin] Hc]].
        -- apply strstr_contains in Hc. congruence.
        -- now exists u.
Qed.

Lemma less_than_is_not_nul : "<"%char <> zero.
Proof. discriminate. Qed.

(** The conditions of [should_trace], read as the rules they test. *)
Lemma rule1_test (filePath : string) :
  nonnull (strstr filePath "site-packages")
  || nonnull (strstr filePath "/lib/python") = true <-> Rule1 filePath.
Proof. unfold Rule1. now rewrite orb_true_iff, !strstr_contains. Qed.

Lemma rule2_test (filePath : string) :
  first_is "<"%char filePath && nonnull (strstr filePath "<ipython") = true
  <-> Rule2 filePath.
Proof.
  unfold Rule2.
  now rewrite andb_true_iff, strstr_contains,
    (first_is_begins _ _ less_than_is_not_nul).
Qed.

Lemma rule3_test (filePath : string) :
  nonnull (strstr filePath "scalene/scalene") = true <-> Rule3 filePath.
Proof. apply strstr_contains. Qed.

Lemma rule4_test (its : list string) (filePath : string) :
  any_traceable filePath its = true <-> Rule4 its filePath.
Proof. apply any_traceable_exists. Qed.

Lemma test_false {b : bool} {P : Prop} : (b = true <-> P) -> ~ P -> b = false.
Proof. destruct b; intuition congruence. Qed.

Lemma test_true {b : bool} {P : Prop} : (b = true <-> P) -> P -> b = true.
Proof. intuition. Qed.

(** ** should_trace *)

Section ShouldTraceFacts.

Variable realpath : string -> option string.

(** C2.  A path that contains "site-packages" or "/lib/python" is rejected
    whatever the include list, the base path and the other fields of the
    filter are, hence also when the path contains a fragment of the include
    list: the exclusion is tested before the inclusion. *)
Theorem should_trace_library_path_false (cfg : TraceConfig) (filePath : string) :
  Contains filePath "site-packages" \/ Contains filePath "/lib/python" ->
  should_trace realpath cfg filePath = Returns false.
Proof.
  intros H. unfold should_trace.
  now rewrite (test_true (rule1_test filePath) H).
Qed.

(** C3.  For a path that matches none of rules 1 to 3: when a fragment of
    the include list occurs in it the answer is true; when none does and the
    path resolves to [canonical], the answer is true exactly when
    [canonical] contains the base path. *)
Theorem should_trace_include_then_base
    (includePatterns : list string) (basePath : string) (profileAll : bool)
    (filePath : string) :
  ~ Rule1 filePath -> ~ Rule2 filePath -> ~ Rule3 filePath ->
  let cfg := TraceConfig_new includePatterns basePath profileAll in
  (Rule4 includePatterns filePath ->
     should_trace realpath cfg filePath = Returns true)
  /\ (~ Rule4 includePatterns filePath ->
      forall canonical, realpath filePath = Some canonical ->
      exists answer,
        should_trace realpath cfg filePath = Returns answer
        /\ (answer = true <-> Contains canonical basePath)).
Proof.
  intros H1 H2 H3 cfg. unfold should_trace.
  rewrite (test_false (rule1_test filePath) H1),
          (test_false (rule2_test filePath) H2),
          (test_false (rule3_test filePath) H3).
  simpl. split.
  - intros H4. now rewrite (test_true (rule4_test _ _) H4).
  - intros H4 canonical Hr.
    rewrite (test_false (rule4_test _ _) H4), Hr.
    eexists. split; [reflexivity | apply strstr_contains].
Qed.

(** C6.  [should_trace] ends in [abort()] exactly when the path matches
    none of rules 1 to 4 and [realpath] fails; in every other case it
    returns a value. *)
Theorem should_trace_aborts_iff
    (includePatterns : list string) (basePath : string) (profileAll : bool)
    (filePath : string) :
  let cfg := TraceConfig_new includePatterns basePath profileAll in
  (should_trace realpath cfg filePath = Aborts <->
     (~ Rule1 filePath /\ ~ Rule2 filePath /\ ~ Rule3 filePath
      /\ ~ Rule4 includePatterns filePath)
     /\ realpath filePath = None)
  /\ (Rule1 filePath \/ Rule2 filePath \/ Rule3 filePath
      \/ Rule4 includePatterns filePath \/ realpath filePath <> None ->
      exists answer, should_trace realpath cfg filePath = Returns answer).
Proof.
  intros cfg.
  assert (E : should_trace realpath cfg filePath = Aborts <->
     (~ Rule1 filePath /\ ~ Rule2 filePath /\ ~ Rule3 filePath
      /\ ~ Rule4 includePatterns filePath)
     /\ realpath filePath = None).
  { unfold should_trace.
    rewrite <- rule1_test, <- rule2_test, <- rule3_test,
      <- (rule4_test includePatterns).
    simpl owner; simpl items; simpl nonnull at 6.
    destruct (nonnull (strstr filePath "site-packages")
              || nonnull (strstr filePath "/lib/python"));
      [intuition congruence |].
    destruct (first_is "<"%char filePath
              && nonnull (strstr filePath "<ipython"));
      [intuition congruence |].
    destruct (nonnull (strstr filePath "scalene/scalene"));
      [intuition congruence |].
    rewrite andb_true_l.
    destruct (any_traceable filePath includePatterns);
      [intuition congruence |].
    destruct (realpath filePath); intuition congruence. }
  split; [exact E |].
  intros H.
  destruct (should_trace realpath cfg filePath) as [answer|] eqn:R.
  - now exists answer.
  - exfalso. destruct E as [E _]. specialize (E eq_refl). tauto.
Qed.

(** C8.  Two filters that differ in nothing but [profile_all] give the
    same answer, or both abort, on every path. *)
Theorem should_trace_ignores_profile_all (c1 c2 : TraceConfig)
    (filePath : string) :
  items c1 = items c2 ->
  scalene_base_path c1 = scalene_base_path c2 ->
  owner c1 = owner c2 ->
  path_owner c1 = path_owner c2 ->
  should_trace realpath c1 filePath = should_trace realpath c2 filePath.
Proof.
  intros Hi Hb Ho _. unfold should_trace. now rewrite Hi, Hb, Ho.
Qed.

End ShouldTraceFacts.

(** ** The walk *)

Lemma strlen_zero (s : string) : (strlen s =? 0)%nat = true <-> s = "".
Proof. destruct s; simpl; split; congruence. Qed.

Lemma fast_path_test (s : string) :
  negb (nonnull (strstr s "<")) && negb (nonnull (strstr s "/python"))
  && negb (nonnull (strstr s "scalene/scalene")) = false <-> Fast_path s.
Proof.
  unfold Fast_path. rewrite <- !strstr_contains.
  destruct (nonnull (strstr s "<")), (nonnull (strstr s "/python")),
    (nonnull (strstr s "scalene/scalene")); simpl; intuition congruence.
Qed.

Lemma frame_filename_none (f : PyFrameObject) :
  frame_filename f = None <-> PyUnicode_AsASCIIString (co_filename f) = None.
Proof.
  unfold frame_filename.
  destruct (PyUnicode_AsASCIIString (co_filename f)); split; congruence.
Qed.

Section WalkFacts.

Variable realpath : string -> option string.
Variable PyPy : bool.

(** The loop body in terms of the name it reads. *)
Lemma loop_body_by_name (cfg : TraceConfig) (f : PyFrameObject)
    (back : FramePtr) (out : Location) :
  loop_body realpath PyPy cfg f back out
  = match frame_filename f with
    | None => (Return (Returns 0) out, [Read_filename f])
    | Some filenameStr =>
        if (strlen filenameStr =? 0)%nat
        then (Loop (f :: back), [Read_filename f])
        else if negb (nonnull (strstr filenameStr "<"))
                && negb (nonnull (strstr filenameStr "/python"))
                && negb (nonnull (strstr filenameStr "scalene/scalene"))
        then
          match should_trace realpath cfg filenameStr with
          | Aborts =>
              (Return Aborts out,
               [Read_filename f; Asked_should_trace filenameStr])
          | Returns true =>
              (Return (Returns 1)
                 {| filename := filenameStr;
                    lineno := f_lineno f;
                    bytei := if PyPy then 0 else f_lasti f |},
               [Read_filename f; Asked_should_trace filenameStr])
          | Returns false =>
              (Loop back, [Read_filename f; Asked_should_trace filenameStr])
          end
        else (Loop back, [Read_filename f])
    end.
Proof.
  unfold loop_body, frame_filename.
  destruct (PyUnicode_AsASCIIString (co_filename f)); reflexivity.
Qed.

Lemma loop_body_empty_filename (cfg : TraceConfig) (f : PyFrameObject)
    (back : FramePtr) (out : Location) :
  frame_filename f = Some "" ->
  loop_body realpath PyPy cfg f back out = (Loop (f :: back), [Read_filename f]).
Proof. intros H. now rewrite loop_body_by_name, H. Qed.

(** With a file name that reads as the empty string in the current frame
    (the name is empty or begins with a NUL character) the loop comes back to
    the same frame, so no number of passes ends it. *)
Lemma while_frame_empty_filename (fuel : nat) (cfg : TraceConfig)
    (f : PyFrameObject) (back : FramePtr) (out : Location) (seen : list Event) :
  frame_filename f = Some "" ->
  while_frame realpath PyPy fuel cfg (f :: back) out seen = None.
Proof.
  intros H. revert seen. induction fuel as [|fuel IH]; intros seen; simpl.
  - reflexivity.
  - rewrite (loop_body_empty_filename cfg f back out H). apply IH.
Qed.

(** A pass either returns, or stays on the frame (the name read is empty),
    or moves to the caller. *)
Lemma loop_body_cases (cfg : TraceConfig) (f : PyFrameObject)
    (back : FramePtr) (out : Location) :
  (exists r out' ev, loop_body realpath PyPy cfg f back out = (Return r out', ev))
  \/ (frame_filename f = Some ""
      /\ loop_body realpath PyPy cfg f back out = (Loop (f :: back), [Read_filename f]))
  \/ (exists ev, loop_body realpath PyPy cfg f back out = (Loop back, ev)).
Proof.
  rewrite loop_body_by_name.
  destruct (frame_filename f) as [s|]; [| left; eauto].
  destruct s as [|c s]; simpl; [right; left; eauto |].
  destruct (negb _ && negb _ && negb _); [| right; right; eauto].
  destruct (should_trace _ _ _) as [[|]|]; eauto 6.
Qed.

(** Where no frame of the chain has a file name that reads as the empty
    string, one pass per frame is enough: the walk returns within the depth
    of the stack. *)
Lemma while_frame_returns (cfg : TraceConfig) (frame : FramePtr) :
  Forall (fun f => frame_filename f <> Some "") frame ->
  forall (fuel : nat) (out : Location) (seen : list Event),
    (List.length frame <= fuel)%nat ->
    exists r, while_frame realpath PyPy fuel cfg frame out seen = Some r.
Proof.
  induction 1 as [|f back Hf Hback IH]; intros fuel out seen Hfuel.
  - destruct fuel; simpl; eauto.
  - destruct fuel as [|fuel]; simpl in Hfuel; [lia |]. simpl.
    destruct (loop_body_cases cfg f back out)
      as [[r [out' [ev E]]] | [[E _] | [ev E]]].
    + rewrite E. eauto.
    + contradiction.
    + rewrite E. apply IH. lia.
Qed.

(** C1.  The walk does not end on every finite frame chain: when the
    innermost frame has the empty string as its file name the loop repeats
    on that frame, whatever bound is put on the number of passes.  The
    frame is not skipped and the walk is not bounded by the stack depth. *)
Theorem whereInPython_empty_filename_never_returns
    (fuel : nat) (tid line lasti : Z) (back : FramePtr)
    (threads : list PyThreadState) (cfg : TraceConfig)
    (sym : option (option FnPtr)) (err : option PyErr) (done : list Effect)
    (out0 : Location) :
  whereInPython realpath PyPy fuel
    {| Py_IsInitialized := true;
       PyGILState_GetThisThreadState :=
         Some {| id := tid;
                 frame := {| co_filename := PyStr "";
                             f_lineno := line; f_lasti := lasti |} :: back |};
       PyInterpreterState_ThreadHead := threads |}
    {| _instance := Some cfg; p_whereInPython := sym;
       pyerr := err; effects := done |}
    out0
  = None.
Proof.
  unfold whereInPython, start_frame; simpl.
  now apply while_frame_empty_filename.
Qed.

(** C4, as the code has it.  The identifier of a frame is its file name as
    the walk reads it: the ASCII encoding of [co_filename] up to its first
    NUL byte.  A frame whose identifier is nonempty is passed over without
    the filter being asked exactly when the identifier contains '<'
    (anywhere, not only at its start), or contains "/python", or contains
    "scalene/scalene"; for every other such frame the walk asks
    [should_trace] about the identifier, once. *)
Theorem loop_body_skips_unasked_iff (cfg : TraceConfig) (f : PyFrameObject)
    (back : FramePtr) (out : Location) (identifier : string) :
  frame_filename f = Some identifier ->
  identifier <> "" ->
  let pass := loop_body realpath PyPy cfg f back out in
  (Skipped_unasked pass back <-> Fast_path identifier)
  /\ (~ Fast_path identifier ->
      snd pass = [Read_filename f; Asked_should_trace identifier]).
Proof.
  intros Hname Hne pass.
  assert (Hlen : (strlen identifier =? 0)%nat = false).
  { destruct (strlen identifier =? 0)%nat eqn:E; [| reflexivity].
    apply strlen_zero in E. contradiction. }
  assert (Hasked : ~ Fast_path identifier ->
            snd pass = [Read_filename f; Asked_should_trace identifier]).
  { intros Hn. subst pass. rewrite loop_body_by_name, Hname, Hlen.
    destruct (negb _ && negb _ && negb _) eqn:E.
    - destruct (should_trace _ _ _) as [[|]|]; reflexivity.
    - apply fast_path_test in E. contradiction. }
  split; [| exact Hasked].
  split.
  - intros [_ Hno].
    destruct (negb (nonnull (strstr identifier "<"))
              && negb (nonnull (strstr identifier "/python"))
              && negb (nonnull (strstr identifier "scalene/scalene"))) eqn:E.
    + exfalso. apply (Hno identifier). rewrite Hasked.
      * right. now left.
      * rewrite <- fast_path_test. congruence.
    + now apply fast_path_test.
  - intros Hfast. apply fast_path_test in Hfast.
    subst pass. unfold Skipped_unasked.
    rewrite loop_body_by_name, Hname, Hlen, Hfast. simpl.
    split; [reflexivity |].
    intros s [H | []]. discriminate.
Qed.

(** C5, as the code has it.  When the interpreter is not initialized the
    call returns 0 at once and the three output parameters keep the values
    the caller passed: the sentinel is written only after that test. *)
Theorem whereInPython_uninitialized (fuel : nat) (py : Interp) (ps : Process)
    (out0 : Location) :
  Py_IsInitialized py = false ->
  whereInPython realpath PyPy fuel py ps out0
  = Some {| exit := Returns 0; out := out0; events := [] |}.
Proof. intros H. unfold whereInPython. now rewrite H. Qed.

(** C9, as the code has it.  With no filter installed every call returns 0
    and looks at no frame; the output parameters hold the sentinel when the
    interpreter is initialized and keep the caller's values when it is not.
    So a call that returns 1 had a filter installed. *)
Theorem whereInPython_no_filter (fuel : nat) (py : Interp) (ps : Process)
    (out0 : Location) :
  getInstance ps = None ->
  exists r,
    whereInPython realpath PyPy fuel py ps out0 = Some r
    /\ exit r = Returns 0
    /\ events r = []
    /\ (Py_IsInitialized py = true -> out r = BOGUS)
    /\ (Py_IsInitialized py = false -> out r = out0).
Proof.
  intros H. unfold whereInPython. rewrite H.
  destruct (Py_IsInitialized py); simpl; eexists; repeat split;
    simpl; congruence.
Qed.

End WalkFacts.

(** ** The thread fallback *)

(** The thread the loop ends with has the smallest identifier among the
    thread kept at the start and the threads scanned, and is one of them. *)
Lemma smallest_id_least (t : list PyThreadState) :
  forall (main : option PyThreadState) (m : PyThreadState),
    smallest_id main t = Some m ->
    (main = Some m \/ In m t)
    /\ (forall m0, main = Some m0 -> id m <= id m0)
    /\ (forall x, In x t -> id m <= id x).
Proof.
  induction t as [|t0 next IH]; intros main m H; simpl in H.
  - subst main. repeat split.
    + now left.
    + intros m0 E. injection E as <-. lia.
    + intros x [].
  - apply IH in H as [Hin [Hmain Hnext]].
    destruct main as [m0|].
    + destruct (id m0 >? id t0) eqn:E.
      * specialize (Hmain t0 eq_refl). apply Z.gtb_lt in E.
        repeat split.
        -- right. destruct Hin as [Hin | Hin];
             [injection Hin as <-; now left | now right].
        -- intros m1 E1. injection E1 as <-. lia.
        -- intros x [<- | Hx]; [lia | now apply Hnext].
      * specialize (Hmain m0 eq_refl).
        assert (id m0 <= id t0)
          by (destruct (Z.gtb_spec (id m0) (id t0)); [discriminate | lia]).
        repeat split.
        -- destruct Hin as [Hin | Hin]; [now left | right; now right].
        -- intros m1 E1. injection E1 as <-. lia.
        -- intros x [<- | Hx]; [lia | now apply Hnext].
    + specialize (Hmain t0 eq_refl). repeat split.
      * right. destruct Hin as [Hin | Hin];
          [injection Hin as <-; now left | now right].
      * discriminate.
      * intros x [<- | Hx]; [lia | now apply Hnext].
Qed.

Lemma smallest_id_some (t : list PyThreadState) :
  forall main, (main <> None \/ t <> []) -> smallest_id main t <> None.
Proof.
  induction t as [|t0 next IH]; intros main H; simpl.
  - destruct H as [H | H]; [assumption | congruence].
  - apply IH. left. destruct main as [m0|]; [destruct (_ >? _) |]; discriminate.
Qed.

Section FallbackFacts.

Variable realpath : string -> option string.
Variable PyPy : bool.

(** C7.  When the calling thread has no current frame (no thread state, or
    a thread state without a frame), the walk starts from the current frame
    of a thread of the main interpreter whose identifier is the smallest of
    all; when there is no thread, or the thread chosen has no frame, the
    call returns 0 with the sentinel. *)
Theorem whereInPython_falls_back_to_smallest_id (fuel : nat) (py : Interp)
    (ps : Process) (out0 : Location) :
  Py_IsInitialized py = true ->
  (forall threadState, PyGILState_GetThisThreadState py = Some threadState ->
     PyThreadState_GetFrame threadState = []) ->
  let threads := PyInterpreterState_ThreadHead py in
  let sentinel := Some {| exit := Returns 0; out := BOGUS; events := [] |} in
  (threads <> [] ->
     exists main,
       In main threads
       /\ (forall t, In t threads -> id main <= id t)
       /\ whereInPython realpath PyPy fuel py ps out0
          = match getInstance ps with
            | None => sentinel
            | Some traceConfig =>
                while_frame realpath PyPy fuel traceConfig
                  (PyThreadState_GetFrame main) BOGUS []
            end)
  /\ (threads = [] -> whereInPython realpath PyPy fuel py ps out0 = sentinel)
  /\ (findMainPythonThread_frame py = [] ->
      whereInPython realpath PyPy fuel py ps out0 = sentinel).
Proof.
  intros Hinit Hnone threads sentinel.
  assert (Hstart : start_frame py = findMainPythonThread_frame py).
  { unfold start_frame.
    destruct (PyGILState_GetThisThreadState py) as [ts|]; [| reflexivity].
    now rewrite (Hnone ts eq_refl). }
  assert (Hrun : whereInPython realpath PyPy fuel py ps out0
            = match getInstance ps with
              | None => sentinel
              | Some traceConfig =>
                  while_frame realpath PyPy fuel traceConfig
                    (findMainPythonThread_frame py) BOGUS []
              end).
  { unfold whereInPython. now rewrite Hinit, Hstart. }
  assert (Hempty : findMainPythonThread_frame py = [] ->
            whereInPython realpath PyPy fuel py ps out0 = sentinel).
  { intros E. rewrite Hrun, E. destruct (getInstance ps); [| reflexivity].
    destruct fuel; reflexivity. }
  split; [| split; [| exact Hempty]].
  - intros Hne.
    destruct (findMainPythonThread py) as [main|] eqn:E.
    + exists main. pose proof E as Hmain. unfold findMainPythonThread in Hmain.
      apply smallest_id_least in Hmain as [[? | Hin] [_ Hleast]];
        [discriminate |].
      repeat split; [assumption | assumption |].
      rewrite Hrun. unfold findMainPythonThread_frame. now rewrite E.
    + exfalso. unfold findMainPythonThread in E.
      now apply (smallest_id_some threads None); [right |].
  - intros E. apply Hempty. unfold findMainPythonThread_frame,
      findMainPythonThread. fold threads. now rewrite E.
Qed.

End FallbackFacts.

(** ** Registration *)

(** C10.  Called with a list, [register_files_to_profile] destroys the
    filter in place and installs the new one, and only then looks up
    "p_whereInPython"; when the lookup fails the caller gets an error and the
    new filter stays installed.  Called with something that is not a list,
    it reports an error and leaves the installed filter as it was. *)
Theorem register_files_to_profile_error_paths (ps : Process)
    (a_list base_path profile_all : PyObject) :
  (forall elems list_wrapper base,
     a_list = PyList elems ->
     ascii_items elems = Some list_wrapper ->
     PyUnicode_AsASCIIString base_path = Some base ->
     let new :=
       TraceConfig_new list_wrapper (PyBytes_AsString base)
         (PyObject_IsTrue profile_all) in
     exists ret ps',
       register_files_to_profile ps [a_list; base_path; profile_all]
       = Some (ret, ps')
       /\ getInstance ps' = Some new
       /\ effects ps'
          = (effects ps
             ++ match getInstance ps with
                | Some old => [Destroyed old]
                | None => []
                end
             ++ [Installed new; Looked_up "p_whereInPython"])%list
       /\ (p_whereInPython ps = None ->
           ret = Py_NULL
           /\ pyerr ps'
              = Some (PyExc_Exception "Unable to find p_whereInPython")
           /\ p_whereInPython ps' = None))
  /\ ((forall elems, a_list <> PyList elems) ->
      exists ps',
        register_files_to_profile ps [a_list; base_path; profile_all]
        = Some (Py_NULL, ps')
        /\ getInstance ps' = getInstance ps
        /\ effects ps' = effects ps
        /\ pyerr ps'
           = Some (PyExc_Exception "Requires list or list-like object")).
Proof.
  split.
  - intros elems list_wrapper base -> Hitems Hbase new.
    unfold register_files_to_profile. simpl PyArg_ParseTuple_OOp. cbv iota beta.
    rewrite Hitems, Hbase. fold new. unfold dlsym.
    assert (Heff : (effects (setInstance ps new)
                    ++ [Looked_up "p_whereInPython"]
                    = effects ps
                      ++ match getInstance ps with
                         | Some old => [Destroyed old]
                         | None => []
                         end
                      ++ [Installed new; Looked_up "p_whereInPython"])%list).
    { unfold setInstance, getInstance. simpl.
      destruct (_instance ps); now rewrite <- !app_assoc. }
    simpl p_whereInPython.
    destruct (p_whereInPython ps) as [cell|] eqn:Hsym; simpl negb; cbv iota.
    + eexists _, _. split; [reflexivity |].
      split; [reflexivity | split; [exact Heff | discriminate]].
    + eexists _, _. split; [reflexivity |].
      repeat split; assumption.
  - intros Hnot. unfold register_files_to_profile. simpl PyArg_ParseTuple_OOp.
    cbv iota beta.
    destruct a_list; try (eexists; repeat split; reflexivity).
    exfalso. now apply (Hnot elems).
Qed.

(** ** The theorems at sample inputs *)

Import Sample.

(** Closes [~ R path] for a rule [R] with test lemma [test], by running
    the test on the path. *)
Ltac refute test :=
  let H := fresh in
  intro H; apply test in H; vm_compute in H; discriminate H.

(** Closes [Contains s needle] on closed strings by running [strstr]. *)
Ltac occurs := apply strstr_contains; vm_compute; reflexivity.

(** The scenarios of the specification. *)
Example walk_reaches_user_frame :
  whereInPython realpath_plain false 3
    (running [importlib; threading; worker]) registered blank
  = Some {| exit := Returns 1;
            out := {| filename := "/home/u/myapp/worker.py";
                      lineno := 12; bytei := 34 |};
            events := [Read_filename importlib; Read_filename threading;
                       Read_filename worker;
                       Asked_should_trace "/home/u/myapp/worker.py"] |}.
Proof. vm_compute. reflexivity. Qed.

Example walk_library_only_gives_sentinel :
  whereInPython realpath_plain false 1 (running [threading]) registered blank
  = Some {| exit := Returns 0; out := BOGUS;
            events := [Read_filename threading] |}.
Proof. vm_compute. reflexivity. Qed.

(** The innermost frame has no file name: a thousand passes are not
    enough, though the stack is two frames deep. *)
Example walk_stuck_on_unnamed_frame :
  whereInPython realpath_plain false 1000
    (running [unnamed; worker]) registered blank = None.
Proof. vm_compute. reflexivity. Qed.

(** A file name is read up to its first NUL character: what follows it is
    neither tested nor reported. *)
Example walk_reads_name_up_to_nul :
  whereInPython realpath_plain false 1 (running [nul_inside]) registered blank
  = Some {| exit := Returns 1;
            out := {| filename := "/home/u/myapp/a.py";
                      lineno := 2; bytei := 4 |};
            events := [Read_filename nul_inside;
                       Asked_should_trace "/home/u/myapp/a.py"] |}.
Proof. vm_compute. reflexivity. Qed.

(** A file name that begins with a NUL character reads as the empty
    string. *)
Example walk_stuck_on_nul_first_name :
  whereInPython realpath_plain false 1000
    (running [nul_first; worker]) registered blank = None.
Proof. vm_compute. reflexivity. Qed.

(** The constructor stores a fragment up to its first NUL character. *)
Example fragment_stored_up_to_nul :
  ascii_items [PyStr ("myapp/" ++ nul ++ "NOPE"); PyStr "lib/"]
  = Some ["myapp/"; "lib/"].
Proof. vm_compute. reflexivity. Qed.

Example base_path_decides :
  should_trace realpath_plain (TraceConfig_new [] "/tmp/proj" false)
    "/tmp/proj/sub/a.py" = Returns true
  /\ should_trace realpath_plain (TraceConfig_new [] "/tmp/proj" false)
       "/opt/other/b.py" = Returns false.
Proof. split; vm_compute; reflexivity. Qed.

Lemma should_trace_library_path_false_witness :
  Rule4 (items myapp) "/venv/lib/site-packages/myapp/a.py"
  /\ should_trace realpath_fails myapp "/venv/lib/site-packages/myapp/a.py"
     = Returns false.
Proof.
  split.
  - exists "myapp/". split; [now left | occurs].
  - apply (should_trace_library_path_false realpath_fails myapp
             "/venv/lib/site-packages/myapp/a.py").
    left. occurs.
Defined.

Lemma should_trace_include_then_base_witness :
  should_trace realpath_fails myapp "/srv/myapp/job.py" = Returns true
  /\ exists answer,
       should_trace realpath_plain myapp "/opt/other/b.py" = Returns answer
       /\ (answer = true <-> Contains "/opt/other/b.py" "/home/u/myapp").
Proof.
  split.
  - apply (should_trace_include_then_base realpath_fails
             ["myapp/"] "/home/u/myapp" false "/srv/myapp/job.py").
    + refute rule1_test.
    + refute rule2_test.
    + refute rule3_test.
    + exists "myapp/". split; [now left | occurs].
  - apply (should_trace_include_then_base realpath_plain
             ["myapp/"] "/home/u/myapp" false "/opt/other/b.py").
    + refute rule1_test.
    + refute rule2_test.
    + refute rule3_test.
    + refute rule4_test.
    + reflexivity.
Defined.

Lemma should_trace_aborts_iff_witness :
  should_trace realpath_fails myapp "/opt/other/b.py" = Aborts
  /\ exists answer,
       should_trace realpath_fails myapp "/srv/myapp/job.py" = Returns answer.
Proof.
  split.
  - apply (should_trace_aborts_iff realpath_fails
             ["myapp/"] "/home/u/myapp" false "/opt/other/b.py").
    repeat split;
      [refute rule1_test | refute rule2_test | refute rule3_test
       | refute rule4_test].
  - apply (should_trace_aborts_iff realpath_fails
             ["myapp/"] "/home/u/myapp" false "/srv/myapp/job.py").
    do 3 right. left.
    exists "myapp/". split; [now left | occurs].
Defined.

Lemma should_trace_ignores_profile_all_witness :
  should_trace realpath_plain
    (TraceConfig_new ["myapp/"] "/home/u/myapp" false) "/opt/other/b.py"
  = should_trace realpath_plain
      (TraceConfig_new ["myapp/"] "/home/u/myapp" true) "/opt/other/b.py".
Proof.
  apply (should_trace_ignores_profile_all realpath_plain
           (TraceConfig_new ["myapp/"] "/home/u/myapp" false)
           (TraceConfig_new ["myapp/"] "/home/u/myapp" true));
    reflexivity.
Defined.

(** C4 as the claim words it fails: the file name of [generated] does not
    begin with '<' and contains neither "/python" nor "scalene/scalene",
    yet the walk passes over the frame without asking the filter. *)
Lemma loop_body_skips_name_with_inner_bracket :
  ~ (BeginsWith "<"%char "/home/u/myapp/gen<T>.py"
     \/ Contains "/home/u/myapp/gen<T>.py" "/python"
     \/ Contains "/home/u/myapp/gen<T>.py" "scalene/scalene")
  /\ Skipped_unasked
       (loop_body realpath_plain false myapp generated [worker] BOGUS)
       [worker].
Proof.
  split.
  - intros [[rest H] | [H | H]].
    + discriminate H.
    + apply strstr_contains in H. vm_compute in H. discriminate H.
    + apply strstr_contains in H. vm_compute in H. discriminate H.
  - split; [reflexivity |].
    intros s [H | []]. discriminate H.
Qed.

Lemma loop_body_skips_unasked_iff_witness :
  Skipped_unasked
    (loop_body realpath_plain false myapp generated [worker] BOGUS) [worker]
  /\ snd (loop_body realpath_plain false myapp worker [] BOGUS)
     = [Read_filename worker; Asked_should_trace "/home/u/myapp/worker.py"]
  /\ snd (loop_body realpath_plain false myapp nul_inside [] BOGUS)
     = [Read_filename nul_inside; Asked_should_trace "/home/u/myapp/a.py"].
Proof.
  split; [| split].
  - apply (loop_body_skips_unasked_iff realpath_plain false myapp generated
             [worker] BOGUS "/home/u/myapp/gen<T>.py");
      [reflexivity | discriminate |].
    left. occurs.
  - apply (loop_body_skips_unasked_iff realpath_plain false myapp worker
             [] BOGUS "/home/u/myapp/worker.py");
      [reflexivity | discriminate |].
    refute fast_path_test.
  - apply (loop_body_skips_unasked_iff realpath_plain false myapp nul_inside
             [] BOGUS "/home/u/myapp/a.py");
      [reflexivity | discriminate |].
    refute fast_path_test.
Defined.

(** C5 as the claim words it fails: called with the interpreter stopped and
    [stale] in the output parameters, the call returns 0 and the output
    parameters still hold [stale], not the sentinel. *)
Lemma whereInPython_uninitialized_keeps_output :
  Py_IsInitialized stopped = false
  /\ whereInPython realpath_plain false 0 stopped registered stale
     = Some {| exit := Returns 0; out := stale; events := [] |}
  /\ stale <> BOGUS.
Proof. repeat split. discriminate. Qed.

Lemma whereInPython_uninitialized_witness :
  whereInPython realpath_plain false 0 stopped registered blank
  = Some {| exit := Returns 0; out := blank; events := [] |}.
Proof.
  apply (whereInPython_uninitialized realpath_plain false 0 stopped
           registered blank).
  reflexivity.
Defined.

(** C9 as the claim words it fails: in a process where no filter was ever
    installed, a call made while the interpreter is stopped returns 0 with
    the caller's values, not the sentinel, in the output parameters. *)
Lemma whereInPython_no_filter_keeps_output :
  getInstance (Process_start None) = None
  /\ whereInPython realpath_plain false 0 stopped (Process_start None) blank
     = Some {| exit := Returns 0; out := blank; events := [] |}
  /\ blank <> BOGUS.
Proof. repeat split. discriminate. Qed.

Lemma whereInPython_no_filter_witness :
  exists r,
    whereInPython realpath_plain false 0 (running [worker])
      (Process_start None) stale = Some r
    /\ exit r = Returns 0
    /\ events r = []
    /\ (Py_IsInitialized (running [worker]) = true -> out r = BOGUS)
    /\ (Py_IsInitialized (running [worker]) = false -> out r = stale).
Proof.
  apply (whereInPython_no_filter realpath_plain false 0 (running [worker])
           (Process_start None) stale).
  reflexivity.
Defined.

Lemma whereInPython_falls_back_to_smallest_id_witness :
  (PyInterpreterState_ThreadHead native_thread <> [] ->
   exists main,
     In main (PyInterpreterState_ThreadHead native_thread)
     /\ (forall t, In t (PyInterpreterState_ThreadHead native_thread) ->
         id main <= id t)
     /\ whereInPython realpath_plain false 2 native_thread registered blank
        = while_frame realpath_plain false 2 myapp
            (PyThreadState_GetFrame main) BOGUS [])
  /\ (PyInterpreterState_ThreadHead native_thread = [] ->
      whereInPython realpath_plain false 2 native_thread registered blank
      = Some {| exit := Returns 0; out := BOGUS; events := [] |})
  /\ (findMainPythonThread_frame native_thread = [] ->
      whereInPython realpath_plain false 2 native_thread registered blank
      = Some {| exit := Returns 0; out := BOGUS; events := [] |}).
Proof.
  apply (whereInPython_falls_back_to_smallest_id realpath_plain false 2
           native_thread registered blank).
  - reflexivity.
  - intros threadState H. discriminate H.
Defined.

(** The sample on the native thread is charged to the frame of thread 1. *)
Example native_thread_sample :
  whereInPython realpath_plain false 2 native_thread registered blank
  = Some {| exit := Returns 1;
            out := {| filename := "/home/u/myapp/worker.py";
                      lineno := 12; bytei := 34 |};
            events := [Read_filename threading; Read_filename worker;
                       Asked_should_trace "/home/u/myapp/worker.py"] |}.
Proof. vm_compute. reflexivity. Qed.

Lemma register_files_to_profile_error_paths_witness :
  (exists ret ps',
     register_files_to_profile (Process_start None)
       [PyList [PyStr "myapp/"]; PyStr "/home/u/myapp"; PyBool false]
     = Some (ret, ps')
     /\ getInstance ps' = Some myapp
     /\ effects ps' = [Installed myapp; Looked_up "p_whereInPython"]
     /\ (p_whereInPython (Process_start None) = None ->
         ret = Py_NULL
         /\ pyerr ps'
            = Some (PyExc_Exception "Unable to find p_whereInPython")
         /\ p_whereInPython ps' = None))
  /\ exists ps',
       register_files_to_profile registered
         [PyStr "myapp/"; PyStr "/home/u/myapp"; PyBool false]
       = Some (Py_NULL, ps')
       /\ getInstance ps' = getInstance registered
       /\ effects ps' = effects registered
       /\ pyerr ps'
          = Some (PyExc_Exception "Requires list or list-like object").
Proof.
  split.
  - apply (proj1 (register_files_to_profile_error_paths (Process_start None)
                    (PyList [PyStr "myapp/"]) (PyStr "/home/u/myapp")
                    (PyBool false))
             [PyStr "myapp/"] ["myapp/"] "/home/u/myapp");
      reflexivity.
  - apply (proj2 (register_files_to_profile_error_paths registered
                    (PyStr "myapp/") (PyStr "/home/u/myapp") (PyBool false))).
    intros elems H. discriminate H.
Defined.

(** ** More on should_trace *)

Lemma contains_empty (s : string) : Contains s "".
Proof. now exists "", s. Qed.

Section ShouldTraceMore.

Variable realpath : string -> option string.

(** The name of an interactive cell (it begins with '<' and contains
    "<ipython") that is not a library path is accepted by every filter,
    also when it contains "scalene/scalene" and when the include list is
    empty; [realpath] is not consulted. *)
Theorem should_trace_ipython_true (cfg : TraceConfig) (filePath : string) :
  ~ Rule1 filePath -> Rule2 filePath ->
  should_trace realpath cfg filePath = Returns true.
Proof.
  intros H1 H2. unfold should_trace.
  now rewrite (test_false (rule1_test filePath) H1),
              (test_true (rule2_test filePath) H2).
Qed.

(** A path inside the profiler's own package ("scalene/scalene") that is
    not an interactive cell is refused by every filter, also when a
    fragment of the include list occurs in it. *)
Theorem should_trace_own_module_false (cfg : TraceConfig) (filePath : string) :
  ~ Rule2 filePath -> Rule3 filePath ->
  should_trace realpath cfg filePath = Returns false.
Proof.
  intros H2 H3. unfold should_trace.
  destruct (nonnull (strstr filePath "site-packages")
            || nonnull (strstr filePath "/lib/python")); [reflexivity |].
  now rewrite (test_false (rule2_test filePath) H2),
              (test_true (rule3_test filePath) H3).
Qed.

(** With the empty string among the fragments, every path that is neither
    a library path nor one of the profiler's own files is accepted, and
    [should_trace] cannot abort on it: the empty string occurs in every
    path. *)
Theorem should_trace_empty_fragment
    (includePatterns : list string) (basePath : string) (profileAll : bool)
    (filePath : string) :
  In "" includePatterns ->
  ~ Rule1 filePath -> ~ Rule3 filePath ->
  should_trace realpath (TraceConfig_new includePatterns basePath profileAll)
    filePath = Returns true.
Proof.
  intros Hin H1 H3. unfold should_trace.
  rewrite (test_false (rule1_test filePath) H1).
  destruct (first_is "<"%char filePath && nonnull (strstr filePath "<ipython"));
    [reflexivity |].
  rewrite (test_false (rule3_test filePath) H3). simpl.
  assert (H4 : Rule4 includePatterns filePath)
    by (exists ""; split; [assumption | apply contains_empty]).
  now rewrite (test_true (rule4_test _ _) H4).
Qed.

End ShouldTraceMore.

(** When one of rules 1 to 4 decides, the file system is not consulted:
    the answer is the same under any two behaviours of [realpath]. *)
Theorem should_trace_realpath_unused
    (realpath1 realpath2 : string -> option string)
    (includePatterns : list string) (basePath : string) (profileAll : bool)
    (filePath : string) :
  Rule1 filePath \/ Rule2 filePath \/ Rule3 filePath
  \/ Rule4 includePatterns filePath ->
  should_trace realpath1
    (TraceConfig_new includePatterns basePath profileAll) filePath
  = should_trace realpath2
      (TraceConfig_new includePatterns basePath profileAll) filePath.
Proof.
  intros H. unfold should_trace.
  destruct (nonnull (strstr filePath "site-packages")
            || nonnull (strstr filePath "/lib/python")) eqn:E1;
    [reflexivity |].
  destruct (first_is "<"%char filePath && nonnull (strstr filePath "<ipython"))
    eqn:E2; [reflexivity |].
  destruct (nonnull (strstr filePath "scalene/scalene")) eqn:E3;
    [reflexivity |].
  simpl.
  destruct (any_traceable filePath includePatterns) eqn:E4; [reflexivity |].
  exfalso.
  destruct H as [H | [H | [H | H]]].
  - apply rule1_test in H. congruence.
  - apply rule2_test in H. congruence.
  - apply rule3_test in H. congruence.
  - apply rule4_test in H. congruence.
Qed.

(** ** More on the walk *)

Lemma nonempty_strlen (s : string) : s <> "" -> (strlen s =? 0)%nat = false.
Proof. destruct s; [congruence | reflexivity]. Qed.

Section WalkMore.

Variable realpath : string -> option string.
Variable PyPy : bool.
Variable cfg : TraceConfig.

Local Abbreviation Passed := (Passed_over realpath cfg).
Local Abbreviation Accept := (Accepted realpath cfg).
Local Abbreviation body := (loop_body realpath PyPy cfg).
Local Abbreviation asked := (pass_events realpath PyPy cfg).
Local Abbreviation Pass := (Pass realpath PyPy cfg).
Local Abbreviation Stopped := (Stopped realpath PyPy cfg).
Local Abbreviation walk := (fun fuel => while_frame realpath PyPy fuel cfg).

Lemma loop_body_passed (f : PyFrameObject) (back : FramePtr) (out : Location) :
  Passed f -> exists ev, body f back out = (Loop back, ev).
Proof.
  intros [name [Hname [Hne Hwhy]]].
  rewrite loop_body_by_name, Hname, (nonempty_strlen name Hne).
  destruct (negb _ && negb _ && negb _) eqn:E.
  - destruct Hwhy as [Hfast | Hno].
    + apply fast_path_test in Hfast. congruence.
    + rewrite Hno. eauto.
  - eauto.
Qed.

Lemma loop_body_accepted (f : PyFrameObject) (back : FramePtr)
    (out : Location) (name : string) :
  Accept f name ->
  body f back out
  = (Return (Returns 1) (location_of PyPy f name),
     [Read_filename f; Asked_should_trace name]).
Proof.
  intros [Hname [Hne [Hslow Hyes]]].
  rewrite loop_body_by_name, Hname, (nonempty_strlen name Hne).
  destruct (negb _ && negb _ && negb _) eqn:E.
  - now rewrite Hyes.
  - apply fast_path_test in E. contradiction.
Qed.

Lemma loop_body_classify (f : PyFrameObject) (back : FramePtr) (out : Location) :
  Pass f back out (fst (body f back out)).
Proof.
  rewrite loop_body_by_name.
  destruct (frame_filename f) as [name|] eqn:Hname;
    [| apply Pass_undecodable; now apply frame_filename_none].
  destruct name as [|c name]; [now apply Pass_unnamed |].
  set (s := String c name) in *.
  assert (Hne : s <> "") by (subst s; discriminate).
  rewrite (nonempty_strlen s Hne).
  destruct (negb (nonnull (strstr s "<")) && negb (nonnull (strstr s "/python"))
            && negb (nonnull (strstr s "scalene/scalene"))) eqn:E.
  - assert (Hslow : ~ Fast_path s)
      by (rewrite <- fast_path_test; congruence).
    destruct (should_trace realpath cfg s) as [[|]|] eqn:Hst; simpl.
    + apply (Pass_accept _ _ _ f back out s). now repeat split.
    + apply Pass_over. exists s. auto.
    + now apply (Pass_abort _ _ _ f back out s).
  - simpl. apply Pass_over. exists s. repeat split; try assumption.
    left. now apply fast_path_test.
Qed.

Lemma loop_body_events (f : PyFrameObject) (back : FramePtr) (out : Location) :
  snd (body f back out) = asked f.
Proof.
  unfold pass_events. rewrite !loop_body_by_name.
  destruct (frame_filename f) as [name|]; [| reflexivity].
  destruct (strlen name =? 0)%nat; [reflexivity |].
  destruct (negb _ && negb _ && negb _); [| reflexivity].
  destruct (should_trace realpath cfg name) as [[|]|]; reflexivity.
Qed.

Lemma loop_body_passed_events (f : PyFrameObject) (back : FramePtr)
    (out : Location) :
  Passed f -> body f back out = (Loop back, asked f).
Proof.
  intros Hf. destruct (loop_body_passed f back out Hf) as [ev E].
  rewrite <- (loop_body_events f back out), E. reflexivity.
Qed.

(** Frames the walk goes past cost one pass each. *)
Lemma while_frame_skip (pre : FramePtr) :
  Forall Passed pre ->
  forall (n : nat) (rest : FramePtr) (out : Location) (seen : list Event),
    walk (List.length pre + n)%nat (pre ++ rest)%list out seen
    = walk n rest out (seen ++ flat_map asked pre)%list.
Proof.
  induction 1 as [|f pre Hf Hpre IH]; intros n rest out seen.
  - simpl. now rewrite app_nil_r.
  - simpl. rewrite (loop_body_passed_events f (pre ++ rest)%list out Hf).
    rewrite IH. now rewrite <- app_assoc.
Qed.

Lemma while_frame_skip_lt (pre : FramePtr) (fuel : nat) :
  Forall Passed pre -> (List.length pre < fuel)%nat ->
  forall (rest : FramePtr) (out : Location) (seen : list Event),
  exists n,
    walk fuel (pre ++ rest)%list out seen
    = walk (S n) rest out (seen ++ flat_map asked pre)%list.
Proof.
  intros Hpre Hlt rest out seen.
  exists (fuel - List.length pre - 1)%nat.
  rewrite <- (while_frame_skip pre Hpre). f_equal. lia.
Qed.

(** Once the walk reaches a frame whose file name reads as the empty
    string it stays there. *)
Lemma while_frame_stuck (pre : FramePtr) (f : PyFrameObject) (post : FramePtr) :
  Forall Passed pre ->
  frame_filename f = Some "" ->
  forall (fuel : nat) (out : Location) (seen : list Event),
    walk fuel (pre ++ f :: post)%list out seen = None.
Proof.
  intros Hpre Hf.
  induction Hpre as [|g pre Hg Hpre IH]; intros fuel out seen.
  - now apply while_frame_empty_filename.
  - destruct fuel as [|fuel]; [reflexivity |]. simpl.
    destruct (loop_body_passed g (pre ++ f :: post)%list out Hg) as [ev E].
    rewrite E. apply IH.
Qed.

(** A finished walk went past a prefix of the chain and stopped. *)
Lemma while_frame_stopped (fuel : nat) :
  forall (chain : FramePtr) (out0 : Location) (seen : list Event) (r : Run),
    walk fuel chain out0 seen = Some r ->
    exists pre rest,
      chain = (pre ++ rest)%list /\ Forall Passed pre /\ Stopped out0 r rest.
Proof.
  induction fuel as [|fuel IH]; intros chain out0 seen r H.
  - destruct chain as [|f back]; [| discriminate H].
    injection H as <-. exists [], []. repeat split; [constructor |].
    now apply Stopped_end.
  - destruct chain as [|f back].
    + injection H as <-. exists [], []. repeat split; [constructor |].
      now apply Stopped_end.
    + simpl in H. pose proof (loop_body_classify f back out0) as Hpass.
      destruct (body f back out0) as [ctl ev]. simpl in Hpass.
      destruct Hpass as [Hf | Hf | Hf | name Hf | name Hf Hne Hslow Hst].
      * injection H as <-. exists [], (f :: back). repeat split; [constructor |].
        now apply Stopped_undecodable.
      * rewrite (while_frame_empty_filename realpath PyPy fuel cfg f back
                   out0 (seen ++ ev) Hf) in H.
        discriminate H.
      * apply IH in H as [pre [rest [-> [Hpre Hstop]]]].
        exists (f :: pre), rest. repeat split; [now constructor | assumption].
      * injection H as <-. exists [], (f :: back). repeat split; [constructor |].
        now apply (Stopped_accept _ _ _ _ _ f back name).
      * injection H as <-. exists [], (f :: back). repeat split; [constructor |].
        now apply (Stopped_abort _ _ _ _ _ f back name).
Qed.

(** The call as a walk, when the interpreter runs and [cfg] is installed. *)
Lemma whereInPython_walk (fuel : nat) (py : Interp) (ps : Process)
    (out0 : Location) :
  Py_IsInitialized py = true -> getInstance ps = Some cfg ->
  whereInPython realpath PyPy fuel py ps out0
  = walk fuel (start_frame py) BOGUS [].
Proof. intros Hi Hc. unfold whereInPython. now rewrite Hi, Hc. Qed.

(** A call that returns 1 stopped at the innermost frame of the chain that
    the filter accepts: every frame before it was excluded by an early test
    or refused by the filter, and the output parameters hold the name of
    that frame as the walk read it (up to its first NUL), its line and its
    bytecode index. *)
Theorem whereInPython_found_is_innermost_accepted (fuel : nat) (py : Interp)
    (ps : Process) (out0 : Location) (r : Run) :
  getInstance ps = Some cfg ->
  whereInPython realpath PyPy fuel py ps out0 = Some r ->
  exit r = Returns 1 ->
  exists pre f post name,
    start_frame py = (pre ++ f :: post)%list
    /\ Forall Passed pre
    /\ Accept f name
    /\ out r = location_of PyPy f name.
Proof.
  intros Hc H Hexit.
  destruct (Py_IsInitialized py) eqn:Hi.
  - rewrite (whereInPython_walk fuel py ps out0 Hi Hc) in H.
    apply while_frame_stopped in H as [pre [rest [E [Hpre Hstop]]]].
    destruct Hstop as [He _ | f post _ He _ | f post name Hacc _ Hout
                       | f post name _ _ _ _ He _]; try congruence.
    now exists pre, f, post, name.
  - unfold whereInPython in H. rewrite Hi in H. injection H as <-.
    discriminate Hexit.
Qed.

(** The innermost accepted frame is found whatever its depth: when the
    frames before it are all gone past and the bound on the passes exceeds
    their number, the call returns 1 with the location of that frame, having
    read the names of these frames only; the frames after it are not looked
    at. *)
Theorem whereInPython_finds_innermost_accepted (fuel : nat) (py : Interp)
    (ps : Process) (out0 : Location) (pre : FramePtr) (f : PyFrameObject)
    (post : FramePtr) (name : string) :
  Py_IsInitialized py = true ->
  getInstance ps = Some cfg ->
  start_frame py = (pre ++ f :: post)%list ->
  Forall Passed pre ->
  Accept f name ->
  (List.length pre < fuel)%nat ->
  whereInPython realpath PyPy fuel py ps out0
  = Some {| exit := Returns 1;
            out := location_of PyPy f name;
            events := (flat_map asked pre
                       ++ [Read_filename f; Asked_should_trace name])%list |}.
Proof.
  intros Hi Hc Hchain Hpre Hacc Hfuel.
  rewrite (whereInPython_walk fuel py ps out0 Hi Hc), Hchain.
  destruct (while_frame_skip_lt pre fuel Hpre Hfuel (f :: post) BOGUS [])
    as [n E].
  rewrite E. simpl. now rewrite (loop_body_accepted f post BOGUS name Hacc).
Qed.

(** A stack all of whose frames are excluded or refused gives 0 and the
    sentinel, within one pass per frame. *)
Theorem whereInPython_all_passed_over (fuel : nat) (py : Interp)
    (ps : Process) (out0 : Location) :
  Py_IsInitialized py = true ->
  getInstance ps = Some cfg ->
  Forall Passed (start_frame py) ->
  (List.length (start_frame py) <= fuel)%nat ->
  whereInPython realpath PyPy fuel py ps out0
  = Some {| exit := Returns 0; out := BOGUS;
            events := flat_map asked (start_frame py) |}.
Proof.
  intros Hi Hc Hall Hfuel.
  rewrite (whereInPython_walk fuel py ps out0 Hi Hc).
  pose proof (while_frame_skip (start_frame py) Hall
                (fuel - List.length (start_frame py)) [] BOGUS []) as E.
  rewrite app_nil_r in E.
  replace (List.length (start_frame py)
           + (fuel - List.length (start_frame py)))%nat with fuel in E by lia.
  rewrite E. destruct (fuel - _)%nat; reflexivity.
Qed.

(** A frame whose file name cannot be encoded in ASCII ends the walk with
    0 and the sentinel: the frames after it are not looked at, even one the
    filter would accept. *)
Theorem whereInPython_undecodable_name_stops (fuel : nat) (py : Interp)
    (ps : Process) (out0 : Location) (pre : FramePtr) (f : PyFrameObject)
    (post : FramePtr) :
  Py_IsInitialized py = true ->
  getInstance ps = Some cfg ->
  start_frame py = (pre ++ f :: post)%list ->
  Forall Passed pre ->
  PyUnicode_AsASCIIString (co_filename f) = None ->
  (List.length pre < fuel)%nat ->
  whereInPython realpath PyPy fuel py ps out0
  = Some {| exit := Returns 0; out := BOGUS;
            events := (flat_map asked pre ++ [Read_filename f])%list |}.
Proof.
  intros Hi Hc Hchain Hpre Hf Hfuel.
  rewrite (whereInPython_walk fuel py ps out0 Hi Hc), Hchain.
  destruct (while_frame_skip_lt pre fuel Hpre Hfuel (f :: post) BOGUS [])
    as [n E].
  rewrite E. simpl. unfold loop_body. now rewrite Hf.
Qed.

(** When the walk reaches a frame on whose name [should_trace] aborts, the
    call ends the process: it does not return and goes on to no other
    frame. *)
Theorem whereInPython_abort_reached (fuel : nat) (py : Interp)
    (ps : Process) (out0 : Location) (pre : FramePtr) (f : PyFrameObject)
    (post : FramePtr) (name : string) :
  Py_IsInitialized py = true ->
  getInstance ps = Some cfg ->
  start_frame py = (pre ++ f :: post)%list ->
  Forall Passed pre ->
  frame_filename f = Some name ->
  name <> "" -> ~ Fast_path name ->
  should_trace realpath cfg name = Aborts ->
  (List.length pre < fuel)%nat ->
  whereInPython realpath PyPy fuel py ps out0
  = Some {| exit := Aborts; out := BOGUS;
            events := (flat_map asked pre
                       ++ [Read_filename f; Asked_should_trace name])%list |}.
Proof.
  intros Hi Hc Hchain Hpre Hf Hne Hslow Hst Hfuel.
  rewrite (whereInPython_walk fuel py ps out0 Hi Hc), Hchain.
  destruct (while_frame_skip_lt pre fuel Hpre Hfuel (f :: post) BOGUS [])
    as [n E].
  rewrite E. simpl.
  rewrite loop_body_by_name, Hf, (nonempty_strlen name Hne).
  destruct (negb _ && negb _ && negb _) eqn:Et.
  - now rewrite Hst.
  - apply fast_path_test in Et. contradiction.
Qed.

Lemma stuck_cons (f : PyFrameObject) (back : FramePtr) :
  Passed f -> Stuck realpath cfg back -> Stuck realpath cfg (f :: back).
Proof.
  intros Hf [pre [g [post [-> [Hpre Hg]]]]].
  exists (f :: pre), g, post. repeat split; [now constructor | assumption].
Qed.

Lemma while_frame_not_stuck (chain : FramePtr) :
  ~ Stuck realpath cfg chain ->
  forall (out0 : Location) (seen : list Event),
  exists r, walk (List.length chain) chain out0 seen = Some r.
Proof.
  induction chain as [|f back IH]; intros Hns out0 seen.
  - simpl. eauto.
  - simpl. pose proof (loop_body_classify f back out0) as Hpass.
    destruct (body f back out0) as [ctl ev]. simpl in Hpass.
    destruct Hpass as [Hf | Hf | Hf | name Hf | name Hf Hne Hslow Hst];
      eauto.
    + exfalso. apply Hns. exists [], f, back. repeat split; [constructor | assumption].
    + apply IH. intros Hs. apply Hns. now apply stuck_cons.
Qed.

(** The call returns (or aborts) exactly when the walk reaches no frame
    whose file name reads as the empty string (a name that is empty or
    begins with a NUL character): then one pass per frame of the stack is
    enough, and otherwise no number of passes is. *)
Theorem whereInPython_ends_iff_not_stuck (py : Interp) (ps : Process)
    (out0 : Location) :
  Py_IsInitialized py = true ->
  getInstance ps = Some cfg ->
  (~ Stuck realpath cfg (start_frame py) ->
   exists r,
     whereInPython realpath PyPy (List.length (start_frame py)) py ps out0
     = Some r)
  /\ (Stuck realpath cfg (start_frame py) ->
      forall fuel, whereInPython realpath PyPy fuel py ps out0 = None).
Proof.
  intros Hi Hc. split.
  - intros Hns. rewrite (whereInPython_walk _ py ps out0 Hi Hc).
    now apply while_frame_not_stuck.
  - intros [pre [f [post [E [Hpre Hf]]]]] fuel.
    rewrite (whereInPython_walk _ py ps out0 Hi Hc), E.
    now apply while_frame_stuck.
Qed.

End WalkMore.

(** A call on a running interpreter that does not return 1 leaves the
    sentinel in the output parameters, whether it returns 0 or aborts;
    these are the only other ways it ends. *)
Theorem whereInPython_not_found_sentinel
    (realpath : string -> option string) (PyPy : bool) (fuel : nat)
    (py : Interp) (ps : Process) (out0 : Location) (r : Run) :
  Py_IsInitialized py = true ->
  whereInPython realpath PyPy fuel py ps out0 = Some r ->
  exit r <> Returns 1 ->
  out r = BOGUS /\ (exit r = Returns 0 \/ exit r = Aborts).
Proof.
  intros Hi H Hexit.
  destruct (getInstance ps) as [cfg|] eqn:Hc.
  - rewrite (whereInPython_walk realpath PyPy cfg fuel py ps out0 Hi Hc) in H.
    apply while_frame_stopped in H as [pre [rest [_ [_ Hstop]]]].
    destruct Hstop; try contradiction; auto.
  - unfold whereInPython in H. rewrite Hi, Hc in H. injection H as <-.
    simpl. auto.
Qed.

(** On a PyPy build the bytecode index given back by a call on a running
    interpreter is always 0. *)
Theorem whereInPython_pypy_bytei_zero
    (realpath : string -> option string) (fuel : nat)
    (py : Interp) (ps : Process) (out0 : Location) (r : Run) :
  Py_IsInitialized py = true ->
  whereInPython realpath true fuel py ps out0 = Some r ->
  bytei (out r) = 0.
Proof.
  intros Hi H.
  destruct (getInstance ps) as [cfg|] eqn:Hc.
  - rewrite (whereInPython_walk realpath true cfg fuel py ps out0 Hi Hc) in H.
    apply while_frame_stopped in H as [pre [rest [_ [_ Hstop]]]].
    destruct Hstop as [_ -> | f post _ _ -> | f post name _ _ ->
                       | f post name _ _ _ _ _ ->]; reflexivity.
  - unfold whereInPython in H. rewrite Hi, Hc in H. now injection H as <-.
Qed.

(** ** More on the thread fallback *)

Lemma id_decides_thread (l : list PyThreadState) (a b : PyThreadState) :
  NoDup (map id l) -> In a l -> In b l -> id a = id b -> a = b.
Proof.
  induction l as [|x l IH]; intros Hnd Ha Hb E; [destruct Ha |].
  simpl in Hnd. inversion Hnd as [|? ? Hx Hl]; subst.
  destruct Ha as [-> | Ha], Hb as [-> | Hb].
  - reflexivity.
  - exfalso. apply Hx. rewrite E. now apply in_map.
  - exfalso. apply Hx. rewrite <- E. now apply in_map.
  - now apply IH.
Qed.

(** Where no two threads have the same identifier, the thread chosen, and
    so the frame the walk falls back to, does not depend on the order in
    which the interpreter lists its threads. *)
Theorem findMainPythonThread_order_independent (py py' : Interp) :
  NoDup (map id (PyInterpreterState_ThreadHead py)) ->
  Permutation (PyInterpreterState_ThreadHead py)
              (PyInterpreterState_ThreadHead py') ->
  findMainPythonThread py = findMainPythonThread py'
  /\ findMainPythonThread_frame py = findMainPythonThread_frame py'.
Proof.
  intros Hnd Hperm.
  assert (E : findMainPythonThread py = findMainPythonThread py').
  { unfold findMainPythonThread.
    destruct (smallest_id None (PyInterpreterState_ThreadHead py))
      as [m|] eqn:E1;
    destruct (smallest_id None (PyInterpreterState_ThreadHead py'))
      as [m'|] eqn:E2.
    - apply smallest_id_least in E1 as [[? | Hin] [_ Hleast]];
        [discriminate |].
      apply smallest_id_least in E2 as [[? | Hin'] [_ Hleast']];
        [discriminate |].
      f_equal.
      apply (id_decides_thread (PyInterpreterState_ThreadHead py));
        [assumption | assumption | |].
      + now apply (Permutation_in _ (Permutation_sym Hperm)).
      + apply Z.le_antisymm.
        * apply Hleast. now apply (Permutation_in _ (Permutation_sym Hperm)).
        * apply Hleast'. now apply (Permutation_in _ Hperm).
    - exfalso. apply (smallest_id_some _ None) in E2; [assumption |].
      right. intros E. rewrite E in Hperm.
      apply Permutation_sym, Permutation_nil in Hperm.
      rewrite Hperm in E1. discriminate E1.
    - exfalso. apply (smallest_id_some _ None) in E1; [assumption |].
      right. intros E. rewrite E in Hperm.
      apply Permutation_nil in Hperm.
      rewrite Hperm in E2. discriminate E2.
    - reflexivity. }
  split; [exact E |].
  unfold findMainPythonThread_frame. now rewrite E.
Qed.

(** ** More on registration *)



(** The C API convention holds: called with no error pending, the function
    returns NULL exactly when it leaves an error set; and when it returns
    NULL the published pointer is as it was. *)
Theorem register_files_to_profile_null_iff_error (ps : Process)
    (args : list PyObject) (ret : PyReturn) (ps' : Process) :
  pyerr ps = None ->
  register_files_to_profile ps args = Some (ret, ps') ->
  (ret = Py_NULL <-> pyerr ps' <> None)
  /\ (ret = Py_NULL -> p_whereInPython ps' = p_whereInPython ps).
Proof.
  intros Herr H. unfold register_files_to_profile in H.
  destruct (PyArg_ParseTuple_OOp args) as [[[a_list base_path] profile_all]|].
  - destruct a_list as [| | | |elems];
      try (injection H as <- <-; simpl; split;
           [split; [discriminate | reflexivity] | reflexivity]).
    destruct (ascii_items elems) as [l|]; [| discriminate H].
    destruct (PyUnicode_AsASCIIString base_path) as [b|]; [| discriminate H].
    unfold dlsym in H. simpl p_whereInPython in H.
    destruct (p_whereInPython ps) as [cell|]; simpl in H;
      injection H as <- <-; simpl.
    + rewrite Herr. split; [split; [discriminate | congruence] | discriminate].
    + split; [split; [discriminate | reflexivity] | reflexivity].
  - injection H as <- <-. simpl.
    split; [split; [discriminate | reflexivity] | reflexivity].
Qed.

(** No call uninstalls a filter: when one is installed before a call of
    [register_files_to_profile] or [print_files_to_profile], one is
    installed after it, whatever the arguments and however the call ends. *)
Theorem filter_stays_installed (ps : Process) :
  getInstance ps <> None ->
  (forall args ret ps',
     register_files_to_profile ps args = Some (ret, ps') ->
     getInstance ps' <> None)
  /\ (forall stdout, getInstance (snd (fst (print_files_to_profile ps stdout)))
                     = getInstance ps).
Proof.
  intros Hin. split.
  - intros args ret ps' H. unfold register_files_to_profile in H.
    destruct (PyArg_ParseTuple_OOp args) as [[[a_list base_path] profile_all]|].
    + destruct a_list as [| | | |elems];
        try (injection H as <- <-; exact Hin).
      destruct (ascii_items elems) as [l|]; [| discriminate H].
      destruct (PyUnicode_AsASCIIString base_path) as [b|]; [| discriminate H].
      unfold dlsym in H. simpl p_whereInPython in H.
      destruct (negb (nonnull (p_whereInPython ps)));
        injection H as <- <-; discriminate.
    + injection H as <- <-. exact Hin.
  - intros stdout. unfold print_files_to_profile.
    destruct (getInstance ps) eqn:E; simpl; exact E.
Qed.

(** ** Registration followed by a sample *)

Lemma string_app_assoc (a b c : string) : (a ++ b) ++ c = a ++ b ++ c.
Proof. induction a as [|x a IH]; simpl; [reflexivity | now rewrite IH]. Qed.

Lemma contains_trans (s a b : string) :
  Contains s a -> Contains a b -> Contains s b.
Proof.
  intros [p [q ->]] [p' [q' ->]]. exists (p ++ p'), (q' ++ q).
  now rewrite !string_app_assoc.
Qed.

(** A name that passes the three early tests of the walk cannot meet the
    tests of [should_trace] for "/lib/python", for an interactive cell and
    for "scalene/scalene". *)
Lemma slow_path_rules (name : string) :
  ~ Fast_path name ->
  ~ Contains name "/lib/python" /\ ~ Rule2 name /\ ~ Rule3 name.
Proof.
  intros Hslow. repeat split.
  - intros H. apply Hslow. right. left.
    apply (contains_trans _ _ _ H). now exists "/lib", "".
  - intros [[rest ->] _]. apply Hslow. left. now exists "", rest.
  - intros H. apply Hslow. now do 2 right.
Qed.

(** After a registration with a list of fragments (whether or not the
    pointer could be published), take a sample whose innermost frame has a
    file name that, read up to its first NUL, is nonempty, contains one of
    the fragments as the constructor stored them (each up to its first
    NUL), is not excluded by the early tests and does not contain
    "site-packages".  It is charged to that frame, under the name as read,
    in one pass and without the file system being consulted. *)
Theorem register_then_whereInPython
    (realpath : string -> option string) (PyPy : bool)
    (ps ps' : Process) (elems : list PyObject)
    (base_path profile_all : PyObject) (ret : PyReturn)
    (list_wrapper : list string)
    (py : Interp) (f : PyFrameObject) (back : FramePtr)
    (name fragment : string) (fuel : nat) (out0 : Location) :
  register_files_to_profile ps [PyList elems; base_path; profile_all]
  = Some (ret, ps') ->
  ascii_items elems = Some list_wrapper ->
  Py_IsInitialized py = true ->
  start_frame py = f :: back ->
  frame_filename f = Some name ->
  name <> "" ->
  In fragment list_wrapper -> Contains name fragment ->
  ~ Fast_path name -> ~ Contains name "site-packages" ->
  (0 < fuel)%nat ->
  whereInPython realpath PyPy fuel py ps' out0
  = Some {| exit := Returns 1;
            out := location_of PyPy f name;
            events := [Read_filename f; Asked_should_trace name] |}.
Proof.
  intros Hreg Hitems Hi Hchain Hname Hne Hin Hocc Hslow Hsite Hfuel.
  destruct (slow_path_rules name Hslow) as [Hlib [H2 H3]].
  unfold register_files_to_profile in Hreg. simpl PyArg_ParseTuple_OOp in Hreg.
  cbv iota beta in Hreg. rewrite Hitems in Hreg.
  destruct (PyUnicode_AsASCIIString base_path) as [base|]; [| discriminate Hreg].
  set (new := TraceConfig_new list_wrapper (PyBytes_AsString base)
                (PyObject_IsTrue profile_all)) in *.
  assert (Hinst : getInstance ps' = Some new).
  { unfold dlsym in Hreg. simpl p_whereInPython in Hreg.
    destruct (negb (nonnull (p_whereInPython ps)));
      injection Hreg as <- <-; reflexivity. }
  assert (Hacc : Accepted realpath new f name).
  { repeat split; try assumption.
    assert (H1 : ~ Rule1 name) by (intros [H | H]; contradiction).
    assert (H4 : Rule4 list_wrapper name) by (now exists fragment).
    unfold should_trace.
    rewrite (test_false (rule1_test name) H1),
            (test_false (rule2_test name) H2),
            (test_false (rule3_test name) H3).
    simpl. now rewrite (test_true (rule4_test _ _) H4). }
  rewrite (whereInPython_walk realpath PyPy new fuel py ps' out0 Hi Hinst),
    Hchain.
  destruct fuel as [|fuel]; [lia |]. simpl.
  now rewrite (loop_body_accepted realpath PyPy new f back BOGUS name Hacc).
Qed.

(** ** print *)

Lemma string_app_inv_head (a x y : string) : a ++ x = a ++ y -> x = y.
Proof.
  induction a as [|c a IH]; simpl; intros H; [assumption |].
  injection H as H. now apply IH.
Qed.

Lemma contains_tail (c : ascii) (s needle : string) :
  Contains s needle -> Contains (String c s) needle.
Proof. intros [p [q ->]]. now exists (String c p), q. Qed.

(** Two lines without a line break inside that are followed by a line
    break and agree as a whole agree line by line. *)
Lemma line_split (c1 c2 r1 r2 : string) :
  ~ Contains c1 newline -> ~ Contains c2 newline ->
  c1 ++ newline ++ r1 = c2 ++ newline ++ r2 ->
  c1 = c2 /\ r1 = r2.
Proof.
  revert c2. induction c1 as [|a c1 IH]; intros [|b c2] H1 H2 E.
  - simpl in E. injection E as E. now split.
  - exfalso. simpl in E. injection E as <- _. apply H2. now exists "", c2.
  - exfalso. simpl in E. injection E as -> _. apply H1. now exists "", c1.
  - simpl in E. injection E as -> E.
    destruct (IH c2) as [-> ->]; try assumption; [| | now split].
    + intros H. apply H1. now apply contains_tail.
    + intros H. apply H2. now apply contains_tail.
Qed.

Lemma print_items_inj (l1 : list string) :
  forall l2,
    Forall (fun c => ~ Contains c newline) l1 ->
    Forall (fun c => ~ Contains c newline) l2 ->
    print_items l1 ++ "}" ++ newline = print_items l2 ++ "}" ++ newline ->
    l1 = l2.
Proof.
  induction l1 as [|c1 l1 IH]; intros [|c2 l2] H1 H2 E.
  - reflexivity.
  - discriminate E.
  - discriminate E.
  - inversion H1; subst. inversion H2; subst.
    simpl in E. injection E as E.
    rewrite !string_app_assoc in E.
    apply line_split in E as [-> E]; try assumption.
    f_equal. now apply IH.
Qed.

(** What [print] writes tells the filter: two filters whose fragments hold
    no line break and that print the same text have the same fragments, in
    the same order, and the same [profile_all]. *)
Theorem TraceConfig_print_tells (c1 c2 : TraceConfig) :
  Forall (fun c => ~ Contains c newline) (items c1) ->
  Forall (fun c => ~ Contains c newline) (items c2) ->
  TraceConfig_print c1 = TraceConfig_print c2 ->
  items c1 = items c2 /\ profile_all c1 = profile_all c2.
Proof.
  intros H1 H2 E. unfold TraceConfig_print in E.
  apply string_app_inv_head in E.
  assert (Hd : profile_all c1 = profile_all c2
               /\ print_items (items c1) ++ "}" ++ newline
                  = print_items (items c2) ++ "}" ++ newline).
  { destruct (profile_all c1), (profile_all c2); simpl in E;
      try discriminate E; injection E as E; now split. }
  destruct Hd as [Hd E']. split; [| exact Hd].
  now apply print_items_inj.
Qed.

(** Every fragment of the filter is printed, between a tab and a line
    break. *)
Theorem TraceConfig_print_lists_items (cfg : TraceConfig) (c : string) :
  In c (items cfg) ->
  Contains (TraceConfig_print cfg) (tab ++ c ++ newline).
Proof.
  intros Hin. unfold TraceConfig_print.
  assert (H : Contains (print_items (items cfg)) (tab ++ c ++ newline)).
  { induction (items cfg) as [|d l IH]; [destruct Hin |].
    destruct Hin as [-> | Hin].
    - exists "", (print_items l). simpl. now rewrite !string_app_assoc.
    - destruct (IH Hin) as [p [q E]].
      exists (tab ++ d ++ newline ++ p), q. simpl print_items. rewrite E.
      now rewrite !string_app_assoc. }
  destruct H as [p [q E]]. rewrite E.
  exists ("Profile all? " ++ printf_d (profile_all cfg) ++ newline
          ++ "items {" ++ p), (q ++ "}" ++ newline).
  now rewrite !string_app_assoc.
Qed.

(** [print_files_to_profile] returns [None] to the Python caller, keeps what
    was written before, and writes something exactly when a filter is
    installed. *)
Theorem print_files_to_profile_writes_iff_installed (ps : Process)
    (stdout : string) :
  exists written,
    print_files_to_profile ps stdout = (Py_None, ps, stdout ++ written)
    /\ (written <> "" <-> getInstance ps <> None).
Proof.
  unfold print_files_to_profile.
  destruct (getInstance ps) as [pl|].
  - exists (TraceConfig_print pl). split; [reflexivity |].
    split; [discriminate |]. intros _. discriminate.
  - exists "". split.
    + f_equal. induction stdout as [|a s IH]; simpl; [reflexivity | now f_equal].
    + split; intros H; now elim H.
Qed.

(** ** The further theorems at sample inputs *)

(** Closes [~ Contains s needle] on closed strings by running [strstr]. *)
Ltac occurs_not :=
  let H := fresh in
  intro H; apply strstr_contains in H; vm_compute in H; discriminate H.

(** Closes [Passed_over] for a sample frame excluded by an early test. *)
Ltac early name :=
  exists name; repeat split;
  [discriminate | left; apply fast_path_test; vm_compute; reflexivity].

Lemma should_trace_ipython_true_witness :
  should_trace realpath_fails (TraceConfig_new [] "/home/u/myapp" false)
    "<ipython-input-3-scalene/scalene>" = Returns true.
Proof.
  apply (should_trace_ipython_true realpath_fails
           (TraceConfig_new [] "/home/u/myapp" false)
           "<ipython-input-3-scalene/scalene>").
  - refute rule1_test.
  - split; [now exists "ipython-input-3-scalene/scalene>" | occurs].
Defined.

Lemma should_trace_own_module_false_witness :
  should_trace realpath_plain
    (TraceConfig_new ["scalene/"] "/home/u/scalene" true)
    "/home/u/scalene/scalene/scalene_profiler.py" = Returns false.
Proof.
  apply (should_trace_own_module_false realpath_plain
           (TraceConfig_new ["scalene/"] "/home/u/scalene" true)
           "/home/u/scalene/scalene/scalene_profiler.py").
  - refute rule2_test.
  - unfold Rule3. occurs.
Defined.

Lemma should_trace_empty_fragment_witness :
  should_trace realpath_fails (TraceConfig_new ["myapp/"; ""] "/home/u" false)
    "/opt/other/b.py" = Returns true.
Proof.
  apply (should_trace_empty_fragment realpath_fails ["myapp/"; ""] "/home/u"
           false "/opt/other/b.py").
  - right. now left.
  - refute rule1_test.
  - refute rule3_test.
Defined.

Lemma should_trace_realpath_unused_witness :
  should_trace realpath_plain myapp "/srv/myapp/job.py"
  = should_trace realpath_fails myapp "/srv/myapp/job.py".
Proof.
  apply (should_trace_realpath_unused realpath_plain realpath_fails
           ["myapp/"] "/home/u/myapp" false "/srv/myapp/job.py").
  do 3 right. exists "myapp/". split; [now left | occurs].
Defined.

Lemma whereInPython_found_is_innermost_accepted_witness :
  exists pre f post name,
    start_frame (running [importlib; threading; worker])
    = (pre ++ f :: post)%list
    /\ Forall (Passed_over realpath_plain myapp) pre
    /\ Accepted realpath_plain myapp f name
    /\ location_of false worker "/home/u/myapp/worker.py"
       = location_of false f name.
Proof.
  apply (whereInPython_found_is_innermost_accepted realpath_plain false myapp
           3 (running [importlib; threading; worker]) registered blank
           {| exit := Returns 1;
              out := location_of false worker "/home/u/myapp/worker.py";
              events := [Read_filename importlib; Read_filename threading;
                         Read_filename worker;
                         Asked_should_trace "/home/u/myapp/worker.py"] |});
    reflexivity.
Defined.

Lemma whereInPython_finds_innermost_accepted_witness :
  whereInPython realpath_plain false 3
    (running [importlib; threading; worker; other]) registered stale
  = Some {| exit := Returns 1;
            out := location_of false worker "/home/u/myapp/worker.py";
            events := (flat_map (pass_events realpath_plain false myapp)
                         [importlib; threading]
                       ++ [Read_filename worker;
                           Asked_should_trace "/home/u/myapp/worker.py"])%list
         |}.
Proof.
  apply (whereInPython_finds_innermost_accepted realpath_plain false myapp 3
           (running [importlib; threading; worker; other]) registered stale
           [importlib; threading] worker [other] "/home/u/myapp/worker.py").
  - reflexivity.
  - reflexivity.
  - reflexivity.
  - repeat constructor.
    + early "<frozen importlib>".
    + early "/usr/lib/python3.11/threading.py".
  - repeat split; [discriminate | refute fast_path_test].
  - simpl. lia.
Defined.

Lemma whereInPython_all_passed_over_witness :
  whereInPython realpath_plain false 2
    (running [threading; other]) registered stale
  = Some {| exit := Returns 0; out := BOGUS;
            events := flat_map (pass_events realpath_plain false myapp)
                        (start_frame (running [threading; other])) |}.
Proof.
  apply (whereInPython_all_passed_over realpath_plain false myapp 2
           (running [threading; other]) registered stale).
  - reflexivity.
  - reflexivity.
  - repeat constructor.
    + early "/usr/lib/python3.11/threading.py".
    + exists "/opt/other/b.py". repeat split; [discriminate |].
      right. reflexivity.
  - simpl. lia.
Defined.

Lemma whereInPython_undecodable_name_stops_witness :
  whereInPython realpath_plain false 2
    (running [threading; accented; worker]) registered stale
  = Some {| exit := Returns 0; out := BOGUS;
            events := (flat_map (pass_events realpath_plain false myapp)
                         [threading]
                       ++ [Read_filename accented])%list |}.
Proof.
  apply (whereInPython_undecodable_name_stops realpath_plain false myapp 2
           (running [threading; accented; worker]) registered stale
           [threading] accented [worker]).
  - reflexivity.
  - reflexivity.
  - reflexivity.
  - repeat constructor. early "/usr/lib/python3.11/threading.py".
  - reflexivity.
  - simpl. lia.
Defined.

Lemma whereInPython_abort_reached_witness :
  whereInPython realpath_fails false 2
    (running [threading; other; worker]) registered stale
  = Some {| exit := Aborts; out := BOGUS;
            events := (flat_map (pass_events realpath_fails false myapp)
                         [threading]
                       ++ [Read_filename other;
                           Asked_should_trace "/opt/other/b.py"])%list |}.
Proof.
  apply (whereInPython_abort_reached realpath_fails false myapp 2
           (running [threading; other; worker]) registered stale
           [threading] other [worker] "/opt/other/b.py").
  - reflexivity.
  - reflexivity.
  - reflexivity.
  - repeat constructor. early "/usr/lib/python3.11/threading.py".
  - reflexivity.
  - discriminate.
  - refute fast_path_test.
  - reflexivity.
  - simpl. lia.
Defined.

Lemma whereInPython_ends_iff_not_stuck_witness :
  whereInPython realpath_plain false 50
    (running [threading; nul_first; worker]) registered blank = None.
Proof.
  apply (proj2 (whereInPython_ends_iff_not_stuck realpath_plain false myapp
                  (running [threading; nul_first; worker]) registered blank
                  eq_refl eq_refl)).
  exists [threading], nul_first, [worker]. repeat split.
  repeat constructor. early "/usr/lib/python3.11/threading.py".
Defined.

Lemma whereInPython_not_found_sentinel_witness :
  BOGUS = BOGUS
  /\ (@Returns Z 0 = Returns 0 \/ @Returns Z 0 = Aborts).
Proof.
  apply (whereInPython_not_found_sentinel realpath_plain false 1
           (running [threading]) registered stale
           {| exit := Returns 0; out := BOGUS;
              events := [Read_filename threading] |}).
  - reflexivity.
  - reflexivity.
  - discriminate.
Defined.

Lemma whereInPython_pypy_bytei_zero_witness :
  bytei (location_of true worker "/home/u/myapp/worker.py") = 0.
Proof.
  apply (whereInPython_pypy_bytei_zero realpath_plain 1
           (running [worker]) registered stale
           {| exit := Returns 1;
              out := location_of true worker "/home/u/myapp/worker.py";
              events := [Read_filename worker;
                         Asked_should_trace "/home/u/myapp/worker.py"] |});
    reflexivity.
Defined.

Lemma findMainPythonThread_order_independent_witness :
  findMainPythonThread native_thread
  = findMainPythonThread native_thread_reordered
  /\ findMainPythonThread_frame native_thread
     = findMainPythonThread_frame native_thread_reordered.
Proof.
  apply (findMainPythonThread_order_independent native_thread
           native_thread_reordered).
  - simpl. repeat constructor; simpl; intuition discriminate.
  - apply perm_swap.
Defined.


Lemma register_files_to_profile_null_iff_error_witness :
  (Py_NULL = Py_NULL
   <-> pyerr (PyErr_SetString (Process_start None)
                "Requires list or list-like object")
       <> None)
  /\ (Py_NULL = Py_NULL ->
      p_whereInPython
        (PyErr_SetString (Process_start None)
           "Requires list or list-like object")
      = p_whereInPython (Process_start None)).
Proof.
  apply (register_files_to_profile_null_iff_error (Process_start None)
           [PyNone; PyStr "/home/u/myapp"; PyBool true]);
    reflexivity.
Defined.

Lemma filter_stays_installed_witness :
  (forall args ret ps',
     register_files_to_profile registered args = Some (ret, ps') ->
     getInstance ps' <> None)
  /\ (forall stdout,
        getInstance (snd (fst (print_files_to_profile registered stdout)))
        = getInstance registered).
Proof.
  apply (filter_stays_installed registered). discriminate.
Defined.

Lemma register_then_whereInPython_witness :
  whereInPython realpath_fails false 1 (running [nul_inside; other])
    {| _instance := Some myapp;
       p_whereInPython := None;
       pyerr := Some (PyExc_Exception "Unable to find p_whereInPython");
       effects := [Installed myapp; Looked_up "p_whereInPython"] |}
    stale
  = Some {| exit := Returns 1;
            out := location_of false nul_inside "/home/u/myapp/a.py";
            events := [Read_filename nul_inside;
                       Asked_should_trace "/home/u/myapp/a.py"] |}.
Proof.
  apply (register_then_whereInPython realpath_fails false
           (Process_start None) _
           [PyStr ("myapp/" ++ nul ++ "NOPE")] (PyStr "/home/u/myapp")
           (PyBool false) Py_NULL
           ["myapp/"] (running [nul_inside; other]) nul_inside [other]
           "/home/u/myapp/a.py" "myapp/" 1 stale).
  - reflexivity.
  - reflexivity.
  - reflexivity.
  - reflexivity.
  - reflexivity.
  - discriminate.
  - now left.
  - occurs.
  - refute fast_path_test.
  - occurs_not.
  - lia.
Defined.

Lemma TraceConfig_print_tells_witness :
  items (TraceConfig_new ["myapp/"; "lib/"] "/home/u/myapp" true)
  = items (TraceConfig_new ["myapp/"; "lib/"] "/srv" true)
  /\ profile_all (TraceConfig_new ["myapp/"; "lib/"] "/home/u/myapp" true)
     = profile_all (TraceConfig_new ["myapp/"; "lib/"] "/srv" true).
Proof.
  apply (TraceConfig_print_tells
           (TraceConfig_new ["myapp/"; "lib/"] "/home/u/myapp" true)
           (TraceConfig_new ["myapp/"; "lib/"] "/srv" true)).
  - repeat constructor; occurs_not.
  - repeat constructor; occurs_not.
  - reflexivity.
Defined.

Lemma TraceConfig_print_lists_items_witness :
  Contains (TraceConfig_print myapp) (tab ++ "myapp/" ++ newline).
Proof.
  apply (TraceConfig_print_lists_items myapp "myapp/"). now left.
Defined.
